(** * edacook: a shallow embedding of the cooking-assistant bot (main.py)

    The bot keeps four module-level dictionaries keyed by the Telegram user
    id, plus the FSM storage of the framework.  Every handler is embedded as
    a function from the state of these stores to the new state and the list
    of replies it sends.  Python [int] is [Z], Python [str] is a [string]
    holding the UTF-8 bytes of the text, a [datetime] is the number of
    microseconds since the epoch as a [Z]. *)

From Stdlib Require Import ZArith String Ascii List Bool Lia.
From Stdlib Require Import DecimalString DecimalZ.
From stdpp Require Import base option gmap strings.
Import ListNotations.

Open Scope string_scope.
Open Scope list_scope.
Open Scope Z_scope.

(** ** Strings *)

Module Str.

(** [w in text]: [w] occurs in [text] as a contiguous substring.  On
    well-formed UTF-8 a byte-level occurrence is a character-level one. *)
Fixpoint contains (w text : string) : bool :=
  String.prefix w text ||
  match text with
  | EmptyString => false
  | String _ rest => contains w rest
  end.

(** [s.startswith(p)] *)
Definition startswith (s p : string) : bool := String.prefix p s.

Fixpoint drop (n : nat) (s : string) : string :=
  match n, s with
  | O, _ => s
  | S n', String _ rest => drop n' rest
  | S _, EmptyString => EmptyString
  end.

(** [s.replace(old, new, 1)]: only the leftmost occurrence is replaced. *)
Fixpoint replace_first (old new s : string) : string :=
  if String.prefix old s then new ++ drop (String.length old) s
  else match s with
       | EmptyString => EmptyString
       | String c rest => String c (replace_first old new rest)
       end.

Definition byte (n : N) : ascii := ascii_of_N n.

(** [text.lower()] on the alphabets the bot is used with: ASCII letters
    and the Cyrillic block (two-byte UTF-8 sequences led by 0xD0).  Every
    other byte sequence is left as it is. *)
Fixpoint lower (s : string) : string :=
  match s with
  | EmptyString => EmptyString
  | String c rest =>
      let n := N_of_ascii c in
      if ((65 <=? n) && (n <=? 90))%N
      then String (byte (n + 32)) (lower rest)
      else if (n =? 208)%N then
        match rest with
        | EmptyString => String c EmptyString
        | String c2 rest' =>
            let m := N_of_ascii c2 in
            if ((144 <=? m) && (m <=? 159))%N        (* U+0410..U+041F *)
            then String (byte 208) (String (byte (m + 32)) (lower rest'))
            else if ((160 <=? m) && (m <=? 175))%N   (* U+0420..U+042F *)
            then String (byte 209) (String (byte (m - 32)) (lower rest'))
            else if ((128 <=? m) && (m <=? 143))%N   (* U+0400..U+040F *)
            then String (byte 209) (String (byte (m + 16)) (lower rest'))
            else String c (String c2 (lower rest'))
        end
      else String c (lower rest)
  end.

(** The value of an ASCII digit. *)
Definition digit_value (c : ascii) : option Z :=
  let n := N_of_ascii c in
  if ((48 <=? n) && (n <=? 57))%N then Some (Z.of_N n - 48) else None.

(** In a [str] pattern [\d] accepts every Unicode decimal digit (category
    Nd), and [int] reads each of them by its decimal value.  The decimal
    digits come in runs of ten consecutive code points, zero first;
    these are the code points of the zeros (Unicode 14.0, the database of
    CPython 3.11): ASCII, Arabic-Indic, ..., the mathematical digits,
    ..., the segmented digits. *)
Definition decimal_zeros : list N :=
  [48; 1632; 1776; 1984; 2406; 2534; 2662; 2790; 2918; 3046; 3174; 3302;
   3430; 3558; 3664; 3792; 3872; 4160; 4240; 6112; 6160; 6470; 6608; 6784;
   6800; 6992; 7088; 7232; 7248; 42528; 43216; 43264; 43472; 43504; 43600;
   44016; 65296; 66720; 68912; 69734; 69872; 69942; 70096; 70384; 70736;
   70864; 71248; 71360; 71472; 71904; 72016; 72784; 73040; 73120; 92768;
   92864; 93008; 120782; 120792; 120802; 120812; 120822; 123200; 123632;
   125264; 130032]%N.

(** The decimal value of a code point, when it is a decimal digit. *)
Definition decimal_value (cp : N) : option Z :=
  match List.find (fun z => (z <=? cp) && (cp <? z + 10))%N decimal_zeros with
  | Some z => Some (Z.of_N (cp - z))
  | None => None
  end.

(** The payload of a UTF-8 continuation byte. *)
Definition continuation (c : ascii) : option N :=
  let n := N_of_ascii c in
  if ((128 <=? n) && (n <? 192))%N then Some (n - 128)%N else None.

(** The character a text starts with: its code point and the text after
    it.  There is none when the text is empty or starts inside a
    character. *)
Definition decode (s : string) : option (N * string) :=
  match s with
  | EmptyString => None
  | String c0 r0 =>
      let b0 := N_of_ascii c0 in
      if (b0 <? 128)%N then Some (b0, r0)
      else if ((192 <=? b0) && (b0 <? 224))%N then
        match r0 with
        | String c1 r1 =>
            match continuation c1 with
            | Some x1 => Some (((b0 - 192) * 64 + x1)%N, r1)
            | None => None
            end
        | EmptyString => None
        end
      else if ((224 <=? b0) && (b0 <? 240))%N then
        match r0 with
        | String c1 (String c2 r2) =>
            match continuation c1, continuation c2 with
            | Some x1, Some x2 =>
                Some ((((b0 - 224) * 64 + x1) * 64 + x2)%N, r2)
            | _, _ => None
            end
        | _ => None
        end
      else if ((240 <=? b0) && (b0 <? 248))%N then
        match r0 with
        | String c1 (String c2 (String c3 r3)) =>
            match continuation c1, continuation c2, continuation c3 with
            | Some x1, Some x2, Some x3 =>
                Some (((((b0 - 240) * 64 + x1) * 64 + x2) * 64 + x3)%N, r3)
            | _, _, _ => None
            end
        | _ => None
        end
      else None
  end.

(** The decimal digit a text starts with, and the text after it. *)
Definition digit_at (s : string) : option (Z * string) :=
  match decode s with
  | Some (cp, rest) =>
      match decimal_value cp with
      | Some d => Some (d, rest)
      | None => None
      end
  | None => None
  end.

(** [re.search(r'(\d{1,2})', text)] followed by [int(...)]: the leftmost
    decimal digit, together with the digit right after it when there is
    one.  The search moves on byte by byte; inside a character no
    character starts. *)
Fixpoint search_number (text : string) : option Z :=
  match digit_at text with
  | Some (d1, rest) =>
      match digit_at rest with
      | Some (d2, _) => Some (10 * d1 + d2)
      | None => Some d1
      end
  | None =>
      match text with
      | EmptyString => None
      | String _ rest => search_number rest
      end
  end.

(** [str(n)] for an [int] *)
Definition of_int (n : Z) : string := NilZero.string_of_int (Z.to_int n).

(** [str(b)] for a [bool] *)
Definition of_bool (b : bool) : string := if b then "True" else "False".

(** [occurs c s]: the character [c] occurs in [s]. *)
Fixpoint occurs (c : ascii) (s : string) : bool :=
  match s with
  | EmptyString => false
  | String b rest => Ascii.eqb b c || occurs c rest
  end.

Definition nl : string := String (byte 10) EmptyString.

End Str.

(** ** Time inference *)

Definition get_time_category (hour : Z) : string :=
  if (5 <=? hour) && (hour <? 10) then "breakfast"
  else if (10 <=? hour) && (hour <? 18) then "lunch"
  else "dinner".

Definition morning_words : list string :=
  ["утро"; "завтрак"; "утром"; "с утра"; "рано"; "8"; "9"].

Definition midday_words : list string :=
  ["обед"; "днём"; "днем"; "10"; "11"; "12"; "13"; "14"; "15"; "16"; "17"].

Definition evening_words : list string :=
  ["ужин"; "вечер"; "ночь"; "сейчас"; "поздно";
   "18"; "19"; "20"; "21"; "22"; "23";
   "0"; "1"; "2"; "3"; "4"; "5"; "6"; "7"].

(** [any(w in text for w in ws)] *)
Definition any_in (ws : list string) (text : string) : bool :=
  existsb (fun w => Str.contains w text) ws.

(** The body of [parse_hour_from_text] after [text = text.lower()];
    [now] is [datetime.now().hour]. *)
Definition parse_hour_lowered (now : Z) (text : string) : Z :=
  if any_in morning_words text then 8
  else if any_in midday_words text then 13
  else if any_in evening_words text then 19
  else match Str.search_number text with
       | Some h => if (0 <=? h) && (h <=? 23) then h else now
       | None => now
       end.

Definition parse_hour_from_text (now : Z) (text : string) : Z :=
  parse_hour_lowered now (Str.lower text).

(** ** Dish catalog and selection *)

(** An entry of [DISHES]: a dictionary with the keys the bot reads. *)
Record Dish : Type := mkDish {
  d_name : string;
  d_recipe : string;
  d_time : string;
  d_healthy : bool;
  d_diet : string
}.

#[global] Instance Dish_eq_dec : EqDecision Dish.
Proof. solve_decision. Defined.

(** ** Stores *)

Inductive FsmState : Type := asking_health | asking_diet.

(** The FSM data dictionary; the bot uses three keys of it. *)
Record FsmData : Type := mkData {
  data_healthy : option bool;
  data_diet : option string;
  data_pending_hour : option Z
}.

Record Session : Type := mkSession {
  fsm_state : option FsmState;
  fsm_data : FsmData
}.

Definition empty_data : FsmData := mkData None None None.
Definition empty_session : Session := mkSession None empty_data.

(** The module-level dictionaries, and the framework's memory storage
    (one record per user: the bot talks to users in private chats). *)
Record BotState : Type := mkState {
  paid_users : gset Z;
  free_attempts : gmap Z Z;
  last_request_time : gmap Z Z;
  last_response_cache : gmap Z (string * Z);
  storage : gmap Z Session
}.

Definition initial_state : BotState := mkState ∅ ∅ ∅ ∅ ∅.

Definition with_paid_users (f : gset Z -> gset Z) (st : BotState) : BotState :=
  mkState (f (paid_users st)) (free_attempts st) (last_request_time st)
          (last_response_cache st) (storage st).

Definition with_free_attempts (f : gmap Z Z -> gmap Z Z) (st : BotState) : BotState :=
  mkState (paid_users st) (f (free_attempts st)) (last_request_time st)
          (last_response_cache st) (storage st).

Definition with_last_request_time (f : gmap Z Z -> gmap Z Z) (st : BotState) : BotState :=
  mkState (paid_users st) (free_attempts st) (f (last_request_time st))
          (last_response_cache st) (storage st).

Definition with_cache (f : gmap Z (string * Z) -> gmap Z (string * Z))
    (st : BotState) : BotState :=
  mkState (paid_users st) (free_attempts st) (last_request_time st)
          (f (last_response_cache st)) (storage st).

Definition with_storage (f : gmap Z Session -> gmap Z Session) (st : BotState) : BotState :=
  mkState (paid_users st) (free_attempts st) (last_request_time st)
          (last_response_cache st) (f (storage st)).

(** A user without a record has no state and an empty data dictionary. *)
Definition session (st : BotState) (user_id : Z) : Session :=
  default empty_session (storage st !! user_id).

(** [state.get_data()] *)
Definition get_data (st : BotState) (user_id : Z) : FsmData :=
  fsm_data (session st user_id).

(** [state.set_state(s)] *)
Definition set_state (user_id : Z) (s : FsmState) (st : BotState) : BotState :=
  with_storage <[user_id := mkSession (Some s) (get_data st user_id)]> st.

(** [state.update_data(...)] *)
Definition update_data (user_id : Z) (f : FsmData -> FsmData) (st : BotState) : BotState :=
  with_storage
    <[user_id := mkSession (fsm_state (session st user_id)) (f (get_data st user_id))]> st.

(** [state.clear()] *)
Definition clear (user_id : Z) (st : BotState) : BotState :=
  with_storage (delete user_id) st.

Definition put_healthy (b : bool) (d : FsmData) : FsmData :=
  mkData (Some b) (data_diet d) (data_pending_hour d).
Definition put_diet (x : string) (d : FsmData) : FsmData :=
  mkData (data_healthy d) (Some x) (data_pending_hour d).
Definition put_pending_hour (h : Z) (d : FsmData) : FsmData :=
  mkData (data_healthy d) (data_diet d) (Some h).

(** ** Replies *)

Inductive Keyboard : Type := health_kb | diet_kb | payment_kb | time_suggestion_kb.

Inductive Reply : Type :=
| Answer (text : string) (kb : option Keyboard)       (* message.answer *)
| EditText (text : string) (kb : option Keyboard)     (* message.edit_text *)
| CallbackAnswer (text : option string) (show_alert : bool). (* callback.answer *)

Definition msg_start : string :=
  "👨‍🍳 Привет! Я помогу решить, что приготовить — с рецептами и учётом ваших предпочтений."
  ++ Str.nl ++ Str.nl ++ "Просто напишите:" ++ Str.nl
  ++ "• «что приготовить на ужин?»" ++ Str.nl
  ++ "• «рецепт на завтрак»" ++ Str.nl
  ++ "• «что сделать в 19:00?»" ++ Str.nl ++ Str.nl
  ++ "Первый раз — бесплатно. Потом — 299 ₽ навсегда.".
Definition msg_wait : string := "⏳ Подождите 1 минуту между запросами.".
Definition msg_unlock : string := "🔓 Разблокируйте полный доступ за 299 ₽ — навсегда!".
Definition msg_ask_health : string := "Вы на правильном питании?".
Definition msg_ask_diet : string := "А что предпочитаете?".
Definition msg_ideas : string := "Вот идеи с рецептами:" ++ Str.nl ++ Str.nl.
Definition msg_more : string := "✨ Больше рецептов — за 299 ₽ навсегда!".
Definition msg_already_paid : string := "Уже оплачено!".
Definition msg_activated : string :=
  "✅ Доступ навсегда активирован!" ++ Str.nl ++ Str.nl
  ++ "Теперь вы можете писать мне сколько угодно. Попробуйте:".
Definition msg_thanks : string := "Спасибо за доверие! 🙏".

(** What the clock shows at the places where a handler reads it. *)
Record Clock : Type := mkClock {
  clk_hour : Z;     (* datetime.now().hour *)
  clk_limit : Z;    (* datetime.now() in is_rate_limited *)
  clk_cache : Z     (* datetime.now() in handle_cooking_internal *)
}.

Definition minutes (n : Z) : Z := n * 60 * 1000000.

(** The updates the router has handlers for, as its filters sort them.
    [StartCommand] is a message that the filter [Command("start")] accepts;
    [TextMessage] is a text message that this filter does not accept, and
    so one that reaches the handler behind [F.text]. *)
Inductive Update : Type :=
| StartCommand (user_id : Z)
| TextMessage (user_id : Z) (text : string)
| CallbackQuery (user_id : Z) (data : string).

(** ** Handlers *)

Section Bot.

(** The catalog is imported from the module [dishes]; the handlers are
    embedded for an arbitrary catalog. *)
Variable DISHES : list Dish.

Definition exact_match (time_cat : string) (healthy : bool) (diet : string)
    (d : Dish) : bool :=
  String.eqb (d_time d) time_cat
  && Bool.eqb (d_healthy d) healthy
  && (String.eqb diet "any" || String.eqb (d_diet d) diet).

Definition filter_dishes (hour : Z) (healthy : bool) (diet : string) : list Dish :=
  let time_cat := get_time_category hour in
  let filtered := List.filter (exact_match time_cat healthy diet) DISHES in
  let filtered :=
    if (Z.of_nat (length filtered) <? 3)
    then
      let fallback :=
        List.filter
          (fun d => String.eqb (d_time d) time_cat
                    && negb (bool_decide (d ∈ filtered)))
          DISHES in
      filtered ++ fallback
    else filtered in
  firstn 3 filtered.

Definition is_rate_limited (now : Z) (user_id : Z) (st : BotState) : bool * BotState :=
  match last_request_time st !! user_id with
  | Some last =>
      if now - last <? minutes 1 then (true, st)
      else (false, with_last_request_time <[user_id := now]> st)
  | None => (false, with_last_request_time <[user_id := now]> st)
  end.

(** [f"{hour}_{healthy}_{diet}"] *)
Definition cache_key (hour : Z) (healthy : bool) (diet : string) : string :=
  (Str.of_int hour ++ "_" ++ Str.of_bool healthy ++ "_" ++ diet)%string.

Definition cache_tag (key : string) : string := ("КЭШ:" ++ key)%string.

(** The cache read of [handle_cooking_internal]: the reply to send when the
    stored response is fresh and carries the key. *)
Definition cached_reply (now : Z) (user_id : Z) (key : string) (st : BotState)
    : option string :=
  if bool_decide (user_id ∈ paid_users st) then
    match last_response_cache st !! user_id with
    | Some (cached_resp, cached_time) =>
        if (now - cached_time <? minutes 5)
           && Str.startswith cached_resp (cache_tag key)
        then Some (Str.replace_first (cache_tag key ++ "||") "" cached_resp)
        else None
    | None => None
    end
  else None.

Definition render (dishes : list Dish) : string :=
  fold_left
    (fun reply d =>
       (reply ++ "🔥 " ++ d_name d ++ Str.nl ++ d_recipe d ++ Str.nl ++ Str.nl)%string)
    dishes msg_ideas.

Definition handle_cooking_internal (clk : Clock) (hour user_id : Z) (st : BotState)
    : BotState * list Reply :=
  let '(limited, st) := is_rate_limited (clk_limit clk) user_id st in
  if limited then (st, [Answer msg_wait None])
  else
    let paid := bool_decide (user_id ∈ paid_users st) in
    let used := default 0 (free_attempts st !! user_id) in
    if negb paid && (1 <=? used)
    then (st, [Answer msg_unlock (Some payment_kb)])
    else
      let st := if paid then st
                else with_free_attempts <[user_id := used + 1]> st in
      let data := get_data st user_id in
      match data_healthy data, data_diet data with
      | Some healthy, Some diet =>
          let key := cache_key hour healthy diet in
          let now := clk_cache clk in
          match cached_reply now user_id key st with
          | Some reply => (st, [Answer reply None])
          | None =>
              let dishes := filter_dishes hour healthy diet in
              let dishes :=
                match dishes with
                | [] => firstn 3 (filter_dishes hour true "any")
                | _ => dishes
                end in
              let reply := render dishes in
              if paid
              then (with_cache
                      <[user_id := ((cache_tag key ++ "||" ++ reply)%string, now)]> st,
                    [Answer reply None])
              else (st, [Answer (reply ++ msg_more)%string None])
          end
      | _, _ =>
          (update_data user_id (put_pending_hour hour)
             (set_state user_id asking_health st),
           [Answer msg_ask_health (Some health_kb)])
      end.

Definition cmd_start (st : BotState) : BotState * list Reply :=
  (st, [Answer msg_start (Some time_suggestion_kb)]).

Definition time_map (data : string) : option Z :=
  if String.eqb data "suggest_breakfast" then Some 8
  else if String.eqb data "suggest_lunch" then Some 13
  else if String.eqb data "suggest_dinner" then Some 19
  else None.

(** [None] is the [KeyError] of a button id that [time_map] lacks; it is
    raised before anything is written. *)
Definition handle_time_suggestion (clk : Clock) (user_id : Z) (data : string)
    (st : BotState) : option (BotState * list Reply) :=
  match time_map data with
  | Some hour =>
      let '(st, out) := handle_cooking_internal clk hour user_id st in
      Some (st, out ++ [CallbackAnswer None false])
  | None => None
  end.

Definition handle_cooking_query (clk : Clock) (user_id : Z) (text : string)
    (st : BotState) : BotState * list Reply :=
  let hour := parse_hour_from_text (clk_hour clk) text in
  handle_cooking_internal clk hour user_id st.

Definition process_health (user_id : Z) (data : string) (st : BotState)
    : BotState * list Reply :=
  let healthy := String.eqb data "healthy_yes" in
  let st := update_data user_id (put_healthy healthy) st in
  let st := set_state user_id asking_diet st in
  (st, [EditText msg_ask_diet (Some diet_kb); CallbackAnswer None false]).

Definition diet_map (data : string) : option string :=
  if String.eqb data "diet_meat" then Some "meat"%string
  else if String.eqb data "diet_fish" then Some "fish"%string
  else if String.eqb data "diet_veg" then Some "veg"%string
  else None.

Definition process_diet (clk : Clock) (user_id : Z) (data : string) (st : BotState)
    : option (BotState * list Reply) :=
  match diet_map data with
  | Some diet =>
      let st := update_data user_id (put_diet diet) st in
      let hour := default (clk_hour clk) (data_pending_hour (get_data st user_id)) in
      let '(st, out) := handle_cooking_internal clk hour user_id st in
      let st := clear user_id st in
      Some (st, out ++ [CallbackAnswer None false])
  | None => None
  end.

Definition buy_access (user_id : Z) (st : BotState) : BotState * list Reply :=
  if bool_decide (user_id ∈ paid_users st)
  then (st, [CallbackAnswer (Some msg_already_paid) true])
  else
    let st := with_paid_users (fun s => {[user_id]} ∪ s) st in
    let st := with_free_attempts (delete user_id) st in
    let st := with_cache (delete user_id) st in
    (st, [EditText msg_activated (Some time_suggestion_kb);
          CallbackAnswer (Some msg_thanks) true]).

Definition in_state (s : FsmState) (user_id : Z) (st : BotState) : bool :=
  match fsm_state (session st user_id), s with
  | Some asking_health, asking_health => true
  | Some asking_diet, asking_diet => true
  | _, _ => false
  end.

(** The router: the handlers in the order they are registered, each behind
    its filters.  An update that no handler accepts is left unhandled:
    nothing is written and nothing is sent.  [None] is an exception raised
    by the handler. *)
Definition dispatch (clk : Clock) (upd : Update) (st : BotState)
    : option (BotState * list Reply) :=
  match upd with
  | StartCommand _ => Some (cmd_start st)
  | TextMessage user_id text => Some (handle_cooking_query clk user_id text st)
  | CallbackQuery user_id data =>
      if String.prefix "suggest_" data
      then handle_time_suggestion clk user_id data st
      else if in_state asking_health user_id st && String.prefix "healthy_" data
      then Some (process_health user_id data st)
      else if in_state asking_diet user_id st && String.prefix "diet_" data
      then process_diet clk user_id data st
      else if String.eqb data "buy_access"
      then Some (buy_access user_id st)
      else Some (st, [])
  end.

(** The stores after an update; a handler that raises has written nothing. *)
Definition step (st : BotState) (ev : Clock * Update) : BotState :=
  match dispatch (fst ev) (snd ev) st with
  | Some (st', _) => st'
  | None => st
  end.

Definition replies (st : BotState) (ev : Clock * Update) : list Reply :=
  match dispatch (fst ev) (snd ev) st with
  | Some (_, out) => out
  | None => []
  end.

Definition run (st : BotState) (evs : list (Clock * Update)) : BotState :=
  fold_left step evs st.

End Bot.

(** ** Vocabulary of the properties *)

(** The dishes of a slot, and those of them that are no exact match. *)
Definition slot_only (time_cat : string) (d : Dish) : bool :=
  String.eqb (d_time d) time_cat.

Definition slot_not_exact (time_cat : string) (healthy : bool) (diet : string)
    (d : Dish) : bool :=
  String.eqb (d_time d) time_cat && negb (exact_match time_cat healthy diet d).

(** The catalog with the position of every entry. *)
Definition numbered (start : nat) (l : list Dish) : list (nat * Dish) :=
  combine (seq start (length l)) l.

(** The diets the diet buttons stand for. *)
Definition diets : list string := ["meat"; "fish"; "veg"]%string.

(** The stores after an admitted rate-limit check. *)
Definition admitted (now user_id : Z) (st : BotState) : BotState :=
  with_last_request_time <[user_id := now]> st.

(** The stores when the quota check lets the request through. *)
Definition charged (now user_id : Z) (st : BotState) : BotState :=
  if bool_decide (user_id ∈ paid_users st) then admitted now user_id st
  else with_free_attempts
         <[user_id := default 0 (free_attempts st !! user_id) + 1]>
         (admitted now user_id st).

(** The cache entry written for a reply. *)
Definition cache_entry (key reply : string) (now : Z) : string * Z :=
  ((cache_tag key ++ "||" ++ reply)%string, now).

(** The dishes of a freshly built reply: the selection, tried again with
    [healthy = True] and [diet = "any"] when it is empty. *)
Definition selection (DISHES : list Dish) (hour : Z) (healthy : bool)
    (diet : string) : list Dish :=
  let dishes := filter_dishes DISHES hour healthy diet in
  match dishes with
  | [] => firstn 3 (filter_dishes DISHES hour true "any")
  | _ => dishes
  end.

(** Every way a cooking request can end. *)
Inductive Outcome (DISHES : list Dish) (clk : Clock) (hour u : Z) (st : BotState)
  : BotState * list Reply -> Prop :=
| out_limited last :
    last_request_time st !! u = Some last ->
    clk_limit clk - last < minutes 1 ->
    Outcome DISHES clk hour u st (st, [Answer msg_wait None])
| out_must_pay :
    fst (is_rate_limited (clk_limit clk) u st) = false ->
    u ∉ paid_users st -> 1 <= default 0 (free_attempts st !! u) ->
    Outcome DISHES clk hour u st
      (admitted (clk_limit clk) u st, [Answer msg_unlock (Some payment_kb)])
| out_ask :
    fst (is_rate_limited (clk_limit clk) u st) = false ->
    (u ∈ paid_users st \/ default 0 (free_attempts st !! u) < 1) ->
    (data_healthy (get_data st u) = None \/ data_diet (get_data st u) = None) ->
    Outcome DISHES clk hour u st
      (update_data u (put_pending_hour hour)
         (set_state u asking_health (charged (clk_limit clk) u st)),
       [Answer msg_ask_health (Some health_kb)])
| out_hit healthy diet reply :
    fst (is_rate_limited (clk_limit clk) u st) = false ->
    u ∈ paid_users st ->
    data_healthy (get_data st u) = Some healthy ->
    data_diet (get_data st u) = Some diet ->
    cached_reply (clk_cache clk) u (cache_key hour healthy diet) st = Some reply ->
    Outcome DISHES clk hour u st (charged (clk_limit clk) u st, [Answer reply None])
| out_fresh_paid healthy diet :
    fst (is_rate_limited (clk_limit clk) u st) = false ->
    u ∈ paid_users st ->
    data_healthy (get_data st u) = Some healthy ->
    data_diet (get_data st u) = Some diet ->
    cached_reply (clk_cache clk) u (cache_key hour healthy diet) st = None ->
    Outcome DISHES clk hour u st
      (with_cache
         <[u := cache_entry (cache_key hour healthy diet)
                  (render (selection DISHES hour healthy diet)) (clk_cache clk)]>
         (charged (clk_limit clk) u st),
       [Answer (render (selection DISHES hour healthy diet)) None])
| out_fresh_free healthy diet :
    fst (is_rate_limited (clk_limit clk) u st) = false ->
    u ∉ paid_users st -> default 0 (free_attempts st !! u) < 1 ->
    data_healthy (get_data st u) = Some healthy ->
    data_diet (get_data st u) = Some diet ->
    Outcome DISHES clk hour u st
      (charged (clk_limit clk) u st,
       [Answer (render (selection DISHES hour healthy diet) ++ msg_more)%string None]).

(** What one update does to the count of one user. *)
Inductive AttemptsChange (st st' : BotState) (u : Z) : Prop :=
| attempts_kept :
    free_attempts st' !! u = free_attempts st !! u ->
    AttemptsChange st st' u
| attempts_used :
    u ∉ paid_users st -> default 0 (free_attempts st !! u) < 1 ->
    free_attempts st' !! u = Some (default 0 (free_attempts st !! u) + 1) ->
    AttemptsChange st st' u
| attempts_dropped :
    u ∉ paid_users st -> u ∈ paid_users st' ->
    free_attempts st' !! u = None ->
    AttemptsChange st st' u.

(** Stored counts are exactly 1. *)
Definition attempts_one (st : BotState) : Prop :=
  forall u n, free_attempts st !! u = Some n -> n = 1.

(** A user who is not entitled and has a session record has used the free
    attempt. *)
Definition sessions_charged (st : BotState) : Prop :=
  forall u, u ∉ paid_users st -> storage st !! u <> None ->
            1 <= default 0 (free_attempts st !! u).

Definition diets_valid (st : BotState) : Prop :=
  forall u d, data_diet (get_data st u) = Some d -> In d diets.

(** Cached responses belong to entitled users and carry the key they were
    stored under. *)
Definition cache_wf (st : BotState) : Prop :=
  forall u resp t, last_response_cache st !! u = Some (resp, t) ->
    u ∈ paid_users st /\
    exists hour healthy diet text,
      In diet diets /\ (resp, t) = cache_entry (cache_key hour healthy diet) text t.

Definition Inv (st : BotState) : Prop :=
  attempts_one st /\ sessions_charged st /\ diets_valid st /\ cache_wf st.

(** ** A small catalog and a few states to run the handlers on *)

Definition sample_DISHES : list Dish :=
  [ mkDish "Омлет" "Взбить яйца и обжарить." "breakfast" true "veg";
    mkDish "Сырники" "Творог, мука, яйцо; обжарить." "breakfast" false "veg";
    mkDish "Яичница с беконом" "Обжарить бекон, добавить яйца." "breakfast" false "meat";
    mkDish "Борщ" "Свёкла, капуста, говядина." "lunch" true "meat";
    mkDish "Лосось на пару" "Готовить 15 минут." "dinner" true "fish";
    mkDish "Овсяная каша" "Варить 5 минут." "breakfast" true "veg";
    mkDish "Стейк" "Обжарить по 3 минуты." "dinner" false "meat" ].

Definition seconds (n : Z) : Z := n * 1000000.

(** A clock that shows noon and the time [t] at every reading. *)
Definition clock_at (t : Z) : Clock := mkClock 12 t t.

(** User 7 has sent one request at time 0 and was asked the health
    question. *)
Definition st_asked : BotState :=
  run sample_DISHES initial_state [(clock_at 0, TextMessage 7 "ужин")].

(** User 7 has paid, asked for breakfast, answered both questions two
    minutes later and got a reply, which was cached. *)
Definition st_cached : BotState :=
  run sample_DISHES initial_state
    [(clock_at 0, CallbackQuery 7 "buy_access");
     (clock_at 0, TextMessage 7 "что на завтрак?");
     (clock_at (seconds 5), CallbackQuery 7 "healthy_no");
     (clock_at (minutes 2), CallbackQuery 7 "diet_meat")].


(** ** Keyboards *)

Inductive Button : Type :=
| CallbackButton (text data : string)
| UrlButton (text url : string).

Definition support_row : list Button :=
  [UrlButton "🛠 Поддержка" "https://t.me/Oblastyle"].

Definition build_health_kb : list (list Button) :=
  [ [CallbackButton "✅ Да, правильное питание" "healthy_yes";
     CallbackButton "😋 Нет, просто вкусно" "healthy_no"];
    support_row ].

Definition build_diet_kb : list (list Button) :=
  [ [CallbackButton "🥩 Мясо" "diet_meat";
     CallbackButton "🐟 Рыба" "diet_fish";
     CallbackButton "🥦 Без мяса" "diet_veg"];
    support_row ].

Definition build_payment_kb : list (list Button) :=
  [ [CallbackButton "💳 Купить доступ за 299 ₽ (навсегда)" "buy_access"];
    support_row ].

Definition build_time_suggestion_kb : list (list Button) :=
  [ [CallbackButton "🍳 На завтрак" "suggest_breakfast";
     CallbackButton "🍲 На обед" "suggest_lunch";
     CallbackButton "🥘 На ужин" "suggest_dinner"];
    support_row ].

(** The markup a reply carries. *)
Definition layout (kb : Keyboard) : list (list Button) :=
  match kb with
  | health_kb => build_health_kb
  | diet_kb => build_diet_kb
  | payment_kb => build_payment_kb
  | time_suggestion_kb => build_time_suggestion_kb
  end.

(** The callback data a keyboard can send back. *)
Definition callback_data (kb : Keyboard) : list string :=
  flat_map
    (fun row =>
       flat_map (fun b => match b with
                          | CallbackButton _ data => [data]
                          | UrlButton _ _ => []
                          end) row)
    (layout kb).

(** ** More vocabulary *)

Definition user_of (upd : Update) : Z :=
  match upd with
  | StartCommand u => u
  | TextMessage u _ => u
  | CallbackQuery u _ => u
  end.

(** A reply that opens with the headline of a list of dishes. *)
Definition dish_reply (r : Reply) : Prop :=
  exists text kb, r = Answer text kb /\ String.prefix msg_ideas text = true.

(** Every cached response is the rendering of the selection for its key. *)
Definition cache_rendered (DISHES : list Dish) (st : BotState) : Prop :=
  forall u resp t, last_response_cache st !! u = Some (resp, t) ->
    exists hour healthy diet,
      In diet diets /\
      (resp, t) = cache_entry (cache_key hour healthy diet)
                    (render (selection DISHES hour healthy diet)) t.

(** A session record exists only while a question is open: it holds the
    hour of the request, no diet, and the health answer once the diet
    question is asked. *)
Definition sessions_complete (st : BotState) : Prop :=
  forall u s, storage st !! u = Some s ->
    fsm_state s <> None /\
    data_diet (fsm_data s) = None /\
    data_pending_hour (fsm_data s) <> None /\
    (fsm_state s = Some asking_diet -> data_healthy (fsm_data s) <> None).

Definition paid_no_attempts (st : BotState) : Prop :=
  forall u, u ∈ paid_users st -> free_attempts st !! u = None.

(** Everything the stores hold about user [v] is the same in [st] and
    [st']. *)
Definition untouched (v : Z) (st st' : BotState) : Prop :=
  (v ∈ paid_users st' <-> v ∈ paid_users st) /\
  free_attempts st' !! v = free_attempts st !! v /\
  last_request_time st' !! v = last_request_time st !! v /\
  last_response_cache st' !! v = last_response_cache st !! v /\
  storage st' !! v = storage st !! v.

(** User 7 has paid, asked for breakfast and answered the health question:
    the diet question is open. *)
Definition evs_diet_open : list (Clock * Update) :=
  [(clock_at 0, CallbackQuery 7 "buy_access");
   (clock_at 0, TextMessage 7 "что на завтрак?");
   (clock_at (seconds 5), CallbackQuery 7 "healthy_no")].

(** The same, followed by the diet answer two minutes later. *)
Definition evs_served : list (Clock * Update) :=
  evs_diet_open ++ [(clock_at (minutes 2), CallbackQuery 7 "diet_meat")].

(** The lines of one dish in a reply, and those of a list of dishes. *)
Definition dish_block (d : Dish) : string :=
  ("🔥 " ++ d_name d ++ Str.nl ++ d_recipe d ++ Str.nl ++ Str.nl)%string.

Definition dish_blocks (ds : list Dish) : string :=
  fold_right (fun d rest => (dish_block d ++ rest)%string) EmptyString ds.

(** * Properties *)

(** ** Strings: properties *)

Lemma prefix_cons_inv (a : ascii) (p s : string) :
  String.prefix (String a p) s = true ->
  exists s', s = String a s' /\ String.prefix p s' = true.
Proof.
  destruct s as [|b s']; simpl; [discriminate|].
  destruct (ascii_dec a b) as [->|]; [|discriminate].
  intros H. exists s'. split; [reflexivity | exact H].
Qed.

Lemma prefix_cons_same (a : ascii) (p s : string) :
  String.prefix (String a p) (String a s) = String.prefix p s.
Proof. simpl. destruct (ascii_dec a a); [reflexivity | congruence]. Qed.

Lemma prefix_app_same (a p s : string) :
  String.prefix (a ++ p) (a ++ s) = String.prefix p s.
Proof.
  induction a as [|c a IH]; [reflexivity|].
  change (String.prefix (String c (a ++ p)) (String c (a ++ s)) = String.prefix p s).
  rewrite prefix_cons_same. exact IH.
Qed.

Lemma prefix_nil (s : string) : String.prefix "" s = true.
Proof. destruct s; reflexivity. Qed.

Lemma prefix_app_self (p r : string) : String.prefix p (p ++ r) = true.
Proof.
  induction p as [|c p IH]; [apply prefix_nil|].
  change (String.prefix (String c p) (String c (p ++ r)) = true).
  rewrite prefix_cons_same. exact IH.
Qed.

Lemma drop_app (p r : string) : Str.drop (String.length p) (p ++ r) = r.
Proof. induction p as [|c p IH]; simpl; [reflexivity | exact IH]. Qed.

Lemma replace_first_prefix (p r : string) : Str.replace_first p "" (p ++ r) = r.
Proof.
  destruct p as [|c p].
  - simpl. destruct r; reflexivity.
  - change ((if String.prefix (String c p) (String c p ++ r)
             then ("" ++ Str.drop (String.length (String c p)) (String c p ++ r))%string
             else String c (Str.replace_first (String c p) "" (p ++ r))) = r).
    rewrite prefix_app_self. rewrite drop_app. reflexivity.
Qed.

(** Two fields terminated by the same separator, neither holding it: if
    one line is a prefix of the other, the fields are equal. *)
Lemma prefix_field (c : ascii) (a a0 x y : string) :
  Str.occurs c a = false -> Str.occurs c a0 = false ->
  String.prefix (a ++ String c x) (a0 ++ String c y) = true ->
  a = a0 /\ String.prefix x y = true.
Proof.
  revert a0. induction a as [|b a IH]; intros [|b0 a0] Ha Ha0 H; simpl in *.
  - destruct (ascii_dec c c); [|congruence]. split; [reflexivity | exact H].
  - destruct (ascii_dec c b0) as [->|]; [|discriminate].
    rewrite Ascii.eqb_refl in Ha0. discriminate.
  - destruct (ascii_dec b c) as [->|]; [|discriminate].
    rewrite Ascii.eqb_refl in Ha. discriminate.
  - destruct (ascii_dec b b0) as [->|]; [|discriminate].
    apply orb_false_iff in Ha as [_ Ha]. apply orb_false_iff in Ha0 as [_ Ha0].
    destruct (IH a0 Ha Ha0 H) as [-> Hp]. split; [reflexivity | exact Hp].
Qed.

Lemma uint_no_underscore (d : Decimal.uint) :
  Str.occurs "_" (NilEmpty.string_of_uint d) = false.
Proof. induction d; simpl; auto. Qed.

Lemma of_int_no_underscore (n : Z) : Str.occurs "_" (Str.of_int n) = false.
Proof.
  unfold Str.of_int, NilZero.string_of_int, NilZero.string_of_uint.
  destruct (Z.to_int n) as [d|d]; destruct d; simpl; auto using uint_no_underscore.
Qed.

Lemma of_int_inj (n m : Z) : Str.of_int n = Str.of_int m -> n = m.
Proof.
  unfold Str.of_int. intros H.
  apply to_int_inj.
  assert (Hn : forall z, NilZero.int_of_string (NilZero.string_of_int (Z.to_int z))
                         = Some (Z.to_int z)).
  { intros z. apply NilZero.isi.
    - destruct z; simpl; try discriminate.
      intros Heq. injection Heq as Heq. revert Heq. apply DecimalPos.Unsigned.to_uint_nonnil.
    - destruct z; simpl; try discriminate.
      intros Heq. injection Heq as Heq. revert Heq. apply DecimalPos.Unsigned.to_uint_nonnil. }
  pose proof (Hn n) as H1. pose proof (Hn m) as H2.
  rewrite H in H1. rewrite H1 in H2. injection H2 as H2. exact H2.
Qed.

Lemma str_app_assoc (a b c : string) : ((a ++ b) ++ c = a ++ (b ++ c))%string.
Proof.
  induction a as [|x a IH]; [reflexivity|].
  change (String x ((a ++ b) ++ c) = String x (a ++ (b ++ c)))%string.
  f_equal. exact IH.
Qed.

Lemma diet_map_diets data d : diet_map data = Some d -> In d diets.
Proof.
  unfold diet_map, diets.
  repeat match goal with |- context [String.eqb ?a ?b] => destruct (String.eqb a b) end;
    intros H; inversion H; subst; simpl; auto.
Qed.

Lemma cache_key_prefix h b d h0 b0 d0 rest :
  In d diets -> In d0 diets ->
  String.prefix (cache_key h b d) (cache_key h0 b0 d0 ++ "||" ++ rest) = true ->
  h = h0 /\ b = b0 /\ d = d0.
Proof.
  intros Hd Hd0 H. unfold cache_key in H.
  rewrite str_app_assoc in H.
  change ("_" ++ ?x)%string with (String "_" x) in H.
  apply prefix_field in H as [Hh H]; try apply of_int_no_underscore.
  apply of_int_inj in Hh. split; [exact Hh|].
  unfold diets in Hd, Hd0. simpl in Hd, Hd0.
  destruct b, b0; simpl in H; try discriminate; (split; [reflexivity|]);
    destruct Hd as [<-|[<-|[<-|[]]]]; destruct Hd0 as [<-|[<-|[<-|[]]]];
    simpl in H; try discriminate; reflexivity.
Qed.

(** ** Time inference: properties *)

Lemma any_in_exists ws text :
  any_in ws text = true <-> exists w, In w ws /\ Str.contains w text = true.
Proof. unfold any_in. apply existsb_exists. Qed.

(** C4: [get_time_category] sends every hour to exactly one slot; the hours
    of [5,10) to breakfast, those of [10,18) to lunch and all others to
    dinner, so that the hours 0..23 are covered without gap or overlap. *)
Theorem get_time_category_partition (hour : Z) :
  (get_time_category hour = "breakfast" <-> 5 <= hour < 10) /\
  (get_time_category hour = "lunch" <-> 10 <= hour < 18) /\
  (get_time_category hour = "dinner" <-> hour < 5 \/ 18 <= hour) /\
  (get_time_category hour = "breakfast" \/
   get_time_category hour = "lunch" \/
   get_time_category hour = "dinner") /\
  (0 <= hour <= 23 ->
   (get_time_category hour = "dinner" <-> 0 <= hour < 5 \/ 18 <= hour <= 23)).
Proof.
  unfold get_time_category.
  destruct (5 <=? hour) eqn:H5; destruct (hour <? 10) eqn:H10;
    destruct (10 <=? hour) eqn:H10'; destruct (hour <? 18) eqn:H18; simpl;
    repeat split; intros; try discriminate; try lia; auto.
Qed.

Lemma get_time_category_partition_witness :
  0 <= 8 <= 23 /\ get_time_category 8 = "breakfast" /\
  (get_time_category 8 = "dinner" <-> 0 <= 8 < 5 \/ 18 <= 8 <= 23).
Proof.
  split; [lia|]. split; [reflexivity|].
  apply (get_time_category_partition 8). lia.
Defined.

(** C3 (as amended): the keyword branches are tried in the order morning,
    midday, evening, each before any digit is extracted.  A text whose
    lower-cased form holds a morning word is parsed as 8; failing that, one
    that holds a midday word is parsed as 13; failing both, one that holds
    an evening or night word or one of the hour strings 18..23, 0..7 is
    parsed as 19, whatever else it holds. *)
Theorem parse_hour_keyword_precedence (now : Z) (text : string) :
  let t := Str.lower text in
  (any_in morning_words t = true -> parse_hour_from_text now text = 8) /\
  (any_in morning_words t = false -> any_in midday_words t = true ->
   parse_hour_from_text now text = 13) /\
  (forall w, In w evening_words -> Str.contains w t = true ->
   any_in morning_words t = false -> any_in midday_words t = false ->
   parse_hour_from_text now text = 19).
Proof.
  unfold parse_hour_from_text, parse_hour_lowered. cbv zeta.
  split; [|split].
  - intros ->. reflexivity.
  - intros -> ->. reflexivity.
  - intros w Hw Hc -> ->.
    assert (He : any_in evening_words (Str.lower text) = true)
      by (apply any_in_exists; exists w; split; assumption).
    rewrite He. reflexivity.
Qed.

Lemma parse_hour_keyword_precedence_witness :
  In "ужин"%string evening_words /\
  Str.contains "ужин" (Str.lower "Что на ужин? 33") = true /\
  any_in morning_words (Str.lower "Что на ужин? 33") = false /\
  any_in midday_words (Str.lower "Что на ужин? 33") = false /\
  parse_hour_from_text 12 "Что на ужин? 33" = 19.
Proof.
  assert (Hw : In "ужин"%string evening_words) by (simpl; auto).
  assert (Hc : Str.contains "ужин" (Str.lower "Что на ужин? 33") = true)
    by (vm_compute; reflexivity).
  assert (Hm : any_in morning_words (Str.lower "Что на ужин? 33") = false)
    by (vm_compute; reflexivity).
  assert (Hd : any_in midday_words (Str.lower "Что на ужин? 33") = false)
    by (vm_compute; reflexivity).
  repeat (split; [assumption|]).
  pose proof (parse_hour_keyword_precedence 12 "Что на ужин? 33") as (_ & _ & Hev).
  exact (Hev "ужин"%string Hw Hc Hm Hd).
Defined.

(** An evening word next to the digit 8: the morning branch wins. *)
Lemma parse_hour_evening_word_with_digit :
  In "ужин"%string evening_words /\
  Str.contains "ужин" (Str.lower "ужин в 8") = true /\
  parse_hour_from_text 12 "ужин в 8" = 8 /\
  parse_hour_from_text 12 "ужин в 8" <> 19.
Proof.
  split; [simpl; auto|]. vm_compute. repeat split; discriminate.
Qed.

(** The hour strings 18 and 19 of the evening list hold the morning words
    8 and 9, so a text that mentions them is parsed as 8. *)
Lemma parse_hour_18_19_morning (now : Z) :
  parse_hour_from_text now "что сделать в 18:00?" = 8 /\
  parse_hour_from_text now "что сделать в 19:00?" = 8 /\
  parse_hour_from_text now "что сделать в 20:00?" = 19.
Proof. repeat split; vm_compute; reflexivity. Qed.

(** ** Dish selection: properties *)

Section Selection.

Variable DISHES : list Dish.

Lemma exact_match_slot time_cat healthy diet d :
  exact_match time_cat healthy diet d = true -> slot_only time_cat d = true.
Proof.
  unfold exact_match, slot_only. intros H.
  apply andb_true_iff in H as [H _]. apply andb_true_iff in H as [H _]. exact H.
Qed.

Lemma member_of_filter (p : Dish -> bool) (l : list Dish) (d : Dish) :
  In d l -> bool_decide (d ∈ List.filter p l) = p d.
Proof.
  intros Hin. destruct (p d) eqn:Hp.
  - apply bool_decide_eq_true. apply list_elem_of_In.
    apply List.filter_In. split; assumption.
  - apply bool_decide_eq_false. rewrite list_elem_of_In.
    intros Hf. apply List.filter_In in Hf as [_ Hf]. congruence.
Qed.

Lemma fallback_is_slot_not_exact time_cat healthy diet :
  List.filter
    (fun d => String.eqb (d_time d) time_cat
              && negb (bool_decide
                         (d ∈ List.filter (exact_match time_cat healthy diet) DISHES)))
    DISHES
  = List.filter (slot_not_exact time_cat healthy diet) DISHES.
Proof.
  apply List.filter_ext_in. intros d Hin. unfold slot_not_exact.
  rewrite member_of_filter by exact Hin. reflexivity.
Qed.

Lemma filter_dishes_stages hour healthy diet :
  filter_dishes DISHES hour healthy diet
  = firstn 3
      (List.filter (exact_match (get_time_category hour) healthy diet) DISHES
       ++ List.filter (slot_not_exact (get_time_category hour) healthy diet) DISHES).
Proof.
  unfold filter_dishes. cbv zeta. rewrite fallback_is_slot_not_exact.
  destruct (Z.ltb_spec (Z.of_nat (length
              (List.filter (exact_match (get_time_category hour) healthy diet) DISHES))) 3)
    as [Hlt|Hge]; [reflexivity|].
  rewrite List.firstn_app.
  replace (3 - length _)%nat with 0%nat by lia.
  simpl. rewrite app_nil_r. reflexivity.
Qed.

Lemma stages_length time_cat healthy diet (l : list Dish) :
  (length (List.filter (exact_match time_cat healthy diet) l
          ++ List.filter (slot_not_exact time_cat healthy diet) l)
   = length (List.filter (slot_only time_cat) l))%nat.
Proof.
  rewrite length_app.
  induction l as [|d l IH]; simpl; [reflexivity|].
  unfold slot_not_exact, slot_only in *.
  destruct (exact_match time_cat healthy diet d) eqn:He.
  - rewrite (exact_match_slot _ _ _ _ He : String.eqb _ _ = true). simpl. lia.
  - destruct (String.eqb (d_time d) time_cat); simpl; lia.
Qed.

(** Two filters that accept no common element keep apart what the
    list keeps apart. *)
Lemma stages_NoDup_map {A B} (f : A -> B) (p q : A -> bool) (l : list A) :
  (forall x, p x = true -> q x = false) ->
  List.NoDup (map f l) ->
  List.NoDup (map f (List.filter p l ++ List.filter q l)).
Proof.
  intros Hpq Hnd.
  assert (Hsub : forall (r : A -> bool) (k : list A) x,
             In x (map f (List.filter r k)) -> In x (map f k)).
  { intros r k x Hx. apply in_map_iff in Hx as (d & <- & Hd).
    apply List.filter_In in Hd as [Hd _]. apply in_map. exact Hd. }
  rewrite map_app.
  induction l as [|d l IH]; simpl; [constructor|].
  inversion Hnd as [|? ? Hnotin Hnd']; subst.
  specialize (IH Hnd').
  destruct (p d) eqn:He.
  - rewrite (Hpq d He). simpl. constructor; [|exact IH].
    intros Hin. apply in_app_or in Hin as [Hin|Hin]; apply Hsub in Hin; contradiction.
  - destruct (q d); [|exact IH].
    simpl. apply List.NoDup_Add with (a := f d)
      (l := (map f (List.filter p l) ++ map f (List.filter q l))).
    + apply List.Add_app.
    + split; [exact IH|].
      intros Hin. apply in_app_or in Hin as [Hin|Hin]; apply Hsub in Hin; contradiction.
Qed.

Lemma exact_not_other time_cat healthy diet d :
  exact_match time_cat healthy diet d = true ->
  slot_not_exact time_cat healthy diet d = false.
Proof. intros H. unfold slot_not_exact. rewrite H. apply andb_false_r. Qed.

Lemma numbered_positions start l : map fst (numbered start l) = seq start (length l).
Proof.
  unfold numbered. revert start. induction l as [|d l IH]; intros start; simpl;
    [reflexivity | rewrite IH; reflexivity].
Qed.

Lemma numbered_filter (p : Dish -> bool) start l :
  map snd (List.filter (fun x => p (snd x)) (numbered start l)) = List.filter p l.
Proof.
  unfold numbered. revert start. induction l as [|d l IH]; intros start; simpl;
    [reflexivity|].
  destruct (p d); simpl; rewrite IH; reflexivity.
Qed.

Lemma numbered_lookup start l i d :
  In (i, d) (numbered start l) -> (start <= i)%nat /\ nth_error l (i - start) = Some d.
Proof.
  unfold numbered. revert start. induction l as [|e l IH]; intros start; simpl;
    [tauto|].
  intros [[= <- <-]|Hin].
  - split; [lia|]. replace (start - start)%nat with 0%nat by lia. reflexivity.
  - apply IH in Hin as [Hle Hn]. split; [lia|].
    replace (i - start)%nat with (S (i - S start)) by lia. exact Hn.
Qed.

Lemma firstn_incl {B} (n : nat) (l : list B) (x : B) : In x (firstn n l) -> In x l.
Proof.
  revert n. induction l as [|y l IH]; intros [|n]; simpl; try tauto.
  intros [H|H]; [left; exact H | right; exact (IH n H)].
Qed.

Lemma firstn_NoDup {B} (n : nat) (l : list B) : List.NoDup l -> List.NoDup (firstn n l).
Proof.
  revert n. induction l as [|x l IH]; intros [|n] Hnd; simpl; try constructor.
  - inversion Hnd; subst. intros Hin. apply firstn_incl in Hin. contradiction.
  - inversion Hnd; subst. apply IH. assumption.
Qed.

(** The test of the first comprehension of [filter_dishes], read off the
    fields of the dish. *)
Lemma exact_match_iff time_cat healthy diet d :
  exact_match time_cat healthy diet d = true <->
  d_time d = time_cat /\ d_healthy d = healthy /\
  (diet = "any"%string \/ d_diet d = diet).
Proof.
  unfold exact_match.
  rewrite !andb_true_iff, orb_true_iff, !String.eqb_eq, Bool.eqb_true_iff.
  tauto.
Qed.

Lemma slot_not_exact_iff time_cat healthy diet d :
  slot_not_exact time_cat healthy diet d = true <->
  d_time d = time_cat /\
  ~ (d_healthy d = healthy /\ (diet = "any"%string \/ d_diet d = diet)).
Proof.
  unfold slot_not_exact.
  rewrite andb_true_iff, negb_true_iff, String.eqb_eq.
  rewrite <- not_true_iff_false, exact_match_iff. tauto.
Qed.

Lemma exact_by_fields time_cat healthy diet (l : list Dish) :
  List.filter
    (fun d => bool_decide
       (d_time d = time_cat /\ d_healthy d = healthy /\
        (diet = "any"%string \/ d_diet d = diet))) l
  = List.filter (exact_match time_cat healthy diet) l.
Proof.
  apply List.filter_ext. intros d.
  destruct (exact_match time_cat healthy diet d) eqn:E.
  - apply bool_decide_eq_true. apply exact_match_iff. exact E.
  - apply bool_decide_eq_false. rewrite <- exact_match_iff. congruence.
Qed.

Lemma others_by_fields time_cat healthy diet (l : list Dish) :
  List.filter
    (fun d => bool_decide
       (d_time d = time_cat /\
        ~ (d_healthy d = healthy /\ (diet = "any"%string \/ d_diet d = diet)))) l
  = List.filter (slot_not_exact time_cat healthy diet) l.
Proof.
  apply List.filter_ext. intros d.
  destruct (slot_not_exact time_cat healthy diet d) eqn:E.
  - apply bool_decide_eq_true. apply slot_not_exact_iff. exact E.
  - apply bool_decide_eq_false. rewrite <- slot_not_exact_iff. congruence.
Qed.

(** A list made of a part that satisfies [P] followed by a part that does
    not: whatever stands before an element with [P] has [P] too. *)
Lemma split_order {A} (P : A -> Prop) (yes no pre post : list A) (x : A) :
  (forall a, In a yes -> P a) -> (forall a, In a no -> ~ P a) ->
  yes ++ no = pre ++ x :: post -> P x ->
  forall a, In a pre -> P a.
Proof.
  intros Hyes Hno. revert pre.
  induction yes as [|y yes IH]; intros pre E Hx a Ha.
  - exfalso. apply (Hno x); [|exact Hx].
    simpl in E. rewrite E. apply in_or_app. right. left. reflexivity.
  - destruct pre as [|p pre]; [contradiction|].
    simpl in E. injection E as <- E.
    destruct Ha as [<-|Ha].
    + apply Hyes. left. reflexivity.
    + apply (IH (fun b Hb => Hyes b (or_intror Hb)) pre E Hx a Ha).
Qed.

(** C5: the selection, stated on the fields of the dishes.  With [exact]
    the dishes of the slot that have the requested healthy flag and, unless
    the request is for any diet, the requested diet, and [others] the
    remaining dishes of the slot (both in catalog order), the result is the
    first three entries of [exact] followed by [others]; it has at most
    three entries, exactly three unless the slot has fewer dishes; a dish
    that is no exact match stands behind every exact match of the result
    and is selected only when every exact match of the catalog is; no
    position of the catalog is taken twice, so that the result repeats no
    dish (nor a dish name) of a catalog whose entries (names) are pairwise
    distinct. *)
Theorem filter_dishes_selection (hour : Z) (healthy : bool) (diet : string) :
  let time_cat := get_time_category hour in
  let exact :=
    List.filter
      (fun d => bool_decide
         (d_time d = time_cat /\ d_healthy d = healthy /\
          (diet = "any"%string \/ d_diet d = diet))) DISHES in
  let others :=
    List.filter
      (fun d => bool_decide
         (d_time d = time_cat /\
          ~ (d_healthy d = healthy /\ (diet = "any"%string \/ d_diet d = diet))))
      DISHES in
  let result := filter_dishes DISHES hour healthy diet in
  result = firstn 3 (exact ++ others) /\
  (length result <= 3)%nat /\
  length result = Nat.min 3 (length (List.filter (slot_only time_cat) DISHES)) /\
  (forall d, In d result -> In d DISHES /\ d_time d = time_cat) /\
  (forall d, In d others -> ~ In d exact) /\
  (exists picks : list (nat * Dish),
     result = map snd picks /\ List.NoDup (map fst picks) /\
     forall i d, In (i, d) picks -> nth_error DISHES i = Some d) /\
  (List.NoDup DISHES -> List.NoDup result) /\
  (List.NoDup (map d_name DISHES) -> List.NoDup (map d_name result)) /\
  (forall d, In d exact <->
     In d DISHES /\ d_time d = time_cat /\ d_healthy d = healthy /\
     (diet = "any"%string \/ d_diet d = diet)) /\
  (forall d, In d others <->
     In d DISHES /\ d_time d = time_cat /\
     ~ (d_healthy d = healthy /\ (diet = "any"%string \/ d_diet d = diet))) /\
  (forall pre d post, result = pre ++ d :: post ->
     d_healthy d = healthy /\ (diet = "any"%string \/ d_diet d = diet) ->
     forall e, In e pre ->
       d_healthy e = healthy /\ (diet = "any"%string \/ d_diet e = diet)) /\
  (forall e, In e result ->
     ~ (d_healthy e = healthy /\ (diet = "any"%string \/ d_diet e = diet)) ->
     forall d, In d DISHES -> d_time d = time_cat -> d_healthy d = healthy ->
       diet = "any"%string \/ d_diet d = diet -> In d result).
Proof.
  cbv zeta. rewrite exact_by_fields, others_by_fields, filter_dishes_stages.
  set (time_cat := get_time_category hour).
  assert (Hexact : forall d,
            In d (List.filter (exact_match time_cat healthy diet) DISHES) <->
            In d DISHES /\ d_time d = time_cat /\ d_healthy d = healthy /\
            (diet = "any"%string \/ d_diet d = diet)).
  { intros d. rewrite List.filter_In, exact_match_iff. reflexivity. }
  assert (Hothers : forall d,
            In d (List.filter (slot_not_exact time_cat healthy diet) DISHES) <->
            In d DISHES /\ d_time d = time_cat /\
            ~ (d_healthy d = healthy /\ (diet = "any"%string \/ d_diet d = diet))).
  { intros d. rewrite List.filter_In, slot_not_exact_iff. reflexivity. }
  assert (Hfront : forall pre d post,
            firstn 3 (List.filter (exact_match time_cat healthy diet) DISHES
                      ++ List.filter (slot_not_exact time_cat healthy diet) DISHES)
            = pre ++ d :: post ->
            d_healthy d = healthy /\ (diet = "any"%string \/ d_diet d = diet) ->
            forall e, In e pre ->
              d_healthy e = healthy /\ (diet = "any"%string \/ d_diet e = diet)).
  { intros pre d post E Hd e He. rewrite List.firstn_app in E.
    refine (split_order
              (fun a => d_healthy a = healthy /\ (diet = "any"%string \/ d_diet a = diet))
              _ _ pre post d _ _ E Hd e He).
    - intros a Ha. apply firstn_incl in Ha. apply Hexact in Ha. tauto.
    - intros a Ha. apply firstn_incl in Ha. apply Hothers in Ha. tauto. }
  assert (Hall : forall e,
            In e (firstn 3 (List.filter (exact_match time_cat healthy diet) DISHES
                            ++ List.filter (slot_not_exact time_cat healthy diet) DISHES)) ->
            ~ (d_healthy e = healthy /\ (diet = "any"%string \/ d_diet e = diet)) ->
            forall d, In d DISHES -> d_time d = time_cat -> d_healthy d = healthy ->
              diet = "any"%string \/ d_diet d = diet ->
              In d (firstn 3 (List.filter (exact_match time_cat healthy diet) DISHES
                              ++ List.filter (slot_not_exact time_cat healthy diet) DISHES))).
  { intros e He Hne d Hd Ht Hh Hdi. rewrite List.firstn_app in *.
    apply in_or_app. left.
    apply in_app_or in He as [He|He].
    - apply firstn_incl in He. apply Hexact in He. tauto.
    - destruct (Nat.le_gt_cases
                  (length (List.filter (exact_match time_cat healthy diet) DISHES)) 3)
        as [Hle|Hgt].
      + rewrite List.firstn_all2 by exact Hle. apply Hexact. tauto.
      + replace (3 - length _)%nat with 0%nat in He by lia. contradiction. }
  split; [reflexivity|].
  split; [apply List.firstn_le_length|].
  split; [rewrite List.length_firstn, stages_length; reflexivity|].
  split.
  { intros d Hin. apply firstn_incl in Hin.
    apply in_app_or in Hin as [Hin|Hin]; apply List.filter_In in Hin as [Hin Hp];
      (split; [exact Hin|]).
    - apply exact_match_slot in Hp. apply String.eqb_eq. exact Hp.
    - unfold slot_not_exact in Hp. apply andb_true_iff in Hp as [Hp _].
      apply String.eqb_eq. exact Hp. }
  split.
  { intros d Hin Hex.
    apply List.filter_In in Hin as [_ Hp]. apply List.filter_In in Hex as [_ He].
    rewrite (exact_not_other _ _ _ _ He) in Hp. discriminate. }
  split.
  { exists (firstn 3
              (List.filter (fun x => exact_match time_cat healthy diet (snd x))
                 (numbered 0 DISHES)
               ++ List.filter (fun x => slot_not_exact time_cat healthy diet (snd x))
                    (numbered 0 DISHES))).
    split; [|split].
    - rewrite <- List.firstn_map, map_app, !numbered_filter. reflexivity.
    - rewrite <- List.firstn_map. apply firstn_NoDup.
      apply stages_NoDup_map.
      + intros x. apply exact_not_other.
      + rewrite numbered_positions. apply List.seq_NoDup.
    - intros i d Hin. apply firstn_incl in Hin.
      assert (Hnum : In (i, d) (numbered 0 DISHES)).
      { apply in_app_or in Hin as [Hin|Hin]; apply List.filter_In in Hin as [Hin _];
          exact Hin. }
      apply numbered_lookup in Hnum as [_ Hnum].
      replace (i - 0)%nat with i in Hnum by lia. exact Hnum. }
  split.
  { intros Hnd. apply firstn_NoDup.
    rewrite <- (map_id (_ ++ _)). apply stages_NoDup_map.
    + intros x. apply exact_not_other.
    + rewrite map_id. exact Hnd. }
  split.
  { intros Hnd. rewrite <- List.firstn_map. apply firstn_NoDup.
    apply stages_NoDup_map; [intros x; apply exact_not_other | exact Hnd]. }
  split; [exact Hexact|].
  split; [exact Hothers|].
  split; [exact Hfront | exact Hall].
Qed.

End Selection.

(** ** The request flow: properties *)

Section Flow.

Variable DISHES : list Dish.

Lemma is_rate_limited_limited now u st last :
  last_request_time st !! u = Some last -> now - last < minutes 1 ->
  is_rate_limited now u st = (true, st).
Proof.
  intros Hl Hlt. unfold is_rate_limited. rewrite Hl.
  destruct (Z.ltb_spec (now - last) (minutes 1)); [reflexivity | lia].
Qed.

Lemma is_rate_limited_cases now u st :
  (exists last, last_request_time st !! u = Some last /\ now - last < minutes 1 /\
                is_rate_limited now u st = (true, st)) \/
  ((last_request_time st !! u = None \/
    exists last, last_request_time st !! u = Some last /\ minutes 1 <= now - last) /\
   is_rate_limited now u st = (false, admitted now u st)).
Proof.
  unfold is_rate_limited, admitted.
  destruct (last_request_time st !! u) as [last|] eqn:Hl.
  - destruct (Z.ltb_spec (now - last) (minutes 1)).
    + left. exists last. auto.
    + right. split; [right; exists last; auto | reflexivity].
  - right. split; [left; reflexivity | reflexivity].
Qed.

Lemma is_rate_limited_admitted now u st :
  fst (is_rate_limited now u st) = false ->
  is_rate_limited now u st = (false, admitted now u st).
Proof.
  destruct (is_rate_limited_cases now u st) as [(last & _ & _ & H)|[_ H]];
    rewrite H; simpl; [discriminate | reflexivity].
Qed.

Lemma handle_limited clk hour u st last :
  last_request_time st !! u = Some last -> clk_limit clk - last < minutes 1 ->
  handle_cooking_internal DISHES clk hour u st = (st, [Answer msg_wait None]).
Proof.
  intros Hl Hlt. unfold handle_cooking_internal.
  rewrite (is_rate_limited_limited _ _ _ _ Hl Hlt). reflexivity.
Qed.

(** What an admitted request of a user who must pay does. *)
Lemma handle_must_pay clk hour u st :
  fst (is_rate_limited (clk_limit clk) u st) = false ->
  u ∉ paid_users st -> 1 <= default 0 (free_attempts st !! u) ->
  handle_cooking_internal DISHES clk hour u st
  = (admitted (clk_limit clk) u st, [Answer msg_unlock (Some payment_kb)]).
Proof.
  intros Hadm Hp Hused. unfold handle_cooking_internal.
  rewrite (is_rate_limited_admitted _ _ _ Hadm). simpl.
  rewrite bool_decide_eq_false_2 by exact Hp.
  destruct (Z.leb_spec 1 (default 0 (free_attempts st !! u))); [reflexivity | lia].
Qed.

Lemma handle_ask clk hour u st :
  fst (is_rate_limited (clk_limit clk) u st) = false ->
  (u ∈ paid_users st \/ default 0 (free_attempts st !! u) < 1) ->
  (data_healthy (get_data st u) = None \/ data_diet (get_data st u) = None) ->
  handle_cooking_internal DISHES clk hour u st
  = (update_data u (put_pending_hour hour)
       (set_state u asking_health (charged (clk_limit clk) u st)),
     [Answer msg_ask_health (Some health_kb)]).
Proof.
  intros Hadm Hq Hdata. unfold handle_cooking_internal, charged.
  rewrite (is_rate_limited_admitted _ _ _ Hadm). simpl.
  destruct (bool_decide (u ∈ paid_users st)) eqn:Hp; simpl.
  - unfold get_data, session in *. simpl.
    destruct Hdata as [-> | Hd]; [reflexivity|].
    rewrite Hd. destruct (data_healthy _); reflexivity.
  - destruct Hq as [Hq | Hq]; [apply bool_decide_eq_false in Hp; contradiction|].
    destruct (Z.leb_spec 1 (default 0 (free_attempts st !! u))); [lia|].
    unfold get_data, session in *. simpl.
    destruct Hdata as [-> | Hd]; [reflexivity|].
    rewrite Hd. destruct (data_healthy _); reflexivity.
Qed.

Lemma cached_reply_charged now t u key st :
  cached_reply now u key (charged t u st) = cached_reply now u key st.
Proof.
  unfold cached_reply, charged.
  destruct (bool_decide (u ∈ paid_users st)) eqn:Hp; simpl; rewrite Hp; reflexivity.
Qed.

Lemma cached_reply_paid now u key st r :
  cached_reply now u key st = Some r -> u ∈ paid_users st.
Proof.
  unfold cached_reply. destruct (bool_decide (u ∈ paid_users st)) eqn:Hp;
    [intros _; apply bool_decide_eq_true in Hp; exact Hp | discriminate].
Qed.

Lemma handle_known clk hour u st healthy diet :
  fst (is_rate_limited (clk_limit clk) u st) = false ->
  (u ∈ paid_users st \/ default 0 (free_attempts st !! u) < 1) ->
  data_healthy (get_data st u) = Some healthy ->
  data_diet (get_data st u) = Some diet ->
  handle_cooking_internal DISHES clk hour u st
  = let st2 := charged (clk_limit clk) u st in
    let key := cache_key hour healthy diet in
    match cached_reply (clk_cache clk) u key st with
    | Some reply => (st2, [Answer reply None])
    | None =>
        let reply := render (selection DISHES hour healthy diet) in
        if bool_decide (u ∈ paid_users st)
        then (with_cache <[u := cache_entry key reply (clk_cache clk)]> st2,
              [Answer reply None])
        else (st2, [Answer (reply ++ msg_more)%string None])
    end.
Proof.
  intros Hadm Hq Hh Hd. cbv zeta.
  rewrite <- (cached_reply_charged (clk_cache clk) (clk_limit clk)).
  unfold handle_cooking_internal, charged.
  rewrite (is_rate_limited_admitted _ _ _ Hadm). simpl.
  destruct (bool_decide (u ∈ paid_users st)) eqn:Hp; simpl.
  - unfold get_data, session in *. simpl. rewrite Hh, Hd.
    destruct (cached_reply _ _ _ _); reflexivity.
  - destruct Hq as [Hq | Hq]; [apply bool_decide_eq_false in Hp; contradiction|].
    destruct (Z.leb_spec 1 (default 0 (free_attempts st !! u))); [lia|].
    unfold get_data, session in *. simpl. rewrite Hh, Hd.
    destruct (cached_reply _ _ _ _) eqn:Hc; [|reflexivity].
    apply cached_reply_paid in Hc. simpl in Hc.
    apply bool_decide_eq_false in Hp. contradiction.
Qed.

Lemma handle_outcome clk hour u st :
  Outcome DISHES clk hour u st (handle_cooking_internal DISHES clk hour u st).
Proof.
  destruct (is_rate_limited_cases (clk_limit clk) u st)
    as [(last & Hl & Hlt & _)|[_ Hadm]].
  { rewrite (handle_limited _ _ _ _ _ Hl Hlt). eapply out_limited; eassumption. }
  assert (Hadm' : fst (is_rate_limited (clk_limit clk) u st) = false)
    by (rewrite Hadm; reflexivity).
  destruct (decide (u ∈ paid_users st)) as [Hp|Hp].
  - destruct (data_healthy (get_data st u)) as [healthy|] eqn:Hh.
    2: { rewrite handle_ask by auto. apply out_ask; auto. }
    destruct (data_diet (get_data st u)) as [diet|] eqn:Hd.
    2: { rewrite handle_ask by auto. apply out_ask; auto. }
    rewrite (handle_known _ _ _ _ healthy diet) by auto. cbv zeta.
    rewrite bool_decide_eq_true_2 by exact Hp.
    destruct (cached_reply _ _ _ _) eqn:Hc.
    + eapply out_hit; eassumption.
    + eapply out_fresh_paid; eassumption.
  - destruct (Z.le_gt_cases 1 (default 0 (free_attempts st !! u))) as [Hu|Hu].
    { rewrite handle_must_pay by assumption. apply out_must_pay; assumption. }
    assert (Hu' : default 0 (free_attempts st !! u) < 1) by lia.
    destruct (data_healthy (get_data st u)) as [healthy|] eqn:Hh.
    2: { rewrite handle_ask by auto. apply out_ask; auto. }
    destruct (data_diet (get_data st u)) as [diet|] eqn:Hd.
    2: { rewrite handle_ask by auto. apply out_ask; auto. }
    rewrite (handle_known _ _ _ _ healthy diet) by auto. cbv zeta.
    rewrite bool_decide_eq_false_2 by exact Hp.
    destruct (cached_reply _ _ _ _) eqn:Hc.
    + apply cached_reply_paid in Hc. contradiction.
    + eapply out_fresh_free; eassumption.
Qed.

End Flow.

(** ** Rate limit, quota, payment and late answers *)

Section Gates.

Variable DISHES : list Dish.

Lemma handle_paid_users clk hour u st :
  paid_users (fst (handle_cooking_internal DISHES clk hour u st)) = paid_users st.
Proof.
  destruct (handle_outcome DISHES clk hour u st); simpl; try reflexivity;
    unfold charged; destruct (bool_decide _); reflexivity.
Qed.

Lemma handle_last_request_time clk hour u st :
  fst (is_rate_limited (clk_limit clk) u st) = false ->
  last_request_time (fst (handle_cooking_internal DISHES clk hour u st))
  = <[u := clk_limit clk]> (last_request_time st).
Proof.
  intros Hadm.
  destruct (handle_outcome DISHES clk hour u st) as [last Hl Hlt| | | | |]; simpl;
    try (unfold charged; destruct (bool_decide _); reflexivity);
    try reflexivity.
  rewrite (is_rate_limited_limited _ _ _ _ Hl Hlt) in Hadm. discriminate.
Qed.

(** How a cooking request changes the free-attempt counters. *)
Lemma handle_free_attempts clk hour u st :
  free_attempts (fst (handle_cooking_internal DISHES clk hour u st)) = free_attempts st \/
  (fst (is_rate_limited (clk_limit clk) u st) = false /\
   (u ∉ paid_users st) /\ default 0 (free_attempts st !! u) < 1 /\
   free_attempts (fst (handle_cooking_internal DISHES clk hour u st))
   = <[u := default 0 (free_attempts st !! u) + 1]> (free_attempts st)).
Proof.
  destruct (handle_outcome DISHES clk hour u st)
    as [last Hl Hlt|Ha Hp Hu|Ha Hq Hd|h d r Ha Hp|h d Ha Hp|h d Ha Hp Hu]; simpl;
    try (left; reflexivity);
    unfold charged; destruct (decide (u ∈ paid_users st)) as [Hin|Hin];
    try contradiction;
    try (rewrite (bool_decide_eq_true_2 _ Hin); left; reflexivity);
    rewrite (bool_decide_eq_false_2 _ Hin); right; simpl; repeat split; auto.
  destruct Hq; [contradiction | assumption].
Qed.

(** A request made with a count of at least 1 by a user who is not
    entitled ends at the rate limit or at the upsell prompt. *)
Lemma handle_blocked clk hour u st :
  u ∉ paid_users st -> 1 <= default 0 (free_attempts st !! u) ->
  snd (handle_cooking_internal DISHES clk hour u st) = [Answer msg_wait None] \/
  snd (handle_cooking_internal DISHES clk hour u st)
  = [Answer msg_unlock (Some payment_kb)].
Proof.
  intros Hp Hu.
  destruct (handle_outcome DISHES clk hour u st)
    as [last Hl Hlt|Ha Hp' Hu'|Ha Hq Hd|h d r Ha Hp'|h d Ha Hp'|h d Ha Hp' Hu']; simpl;
    try contradiction; try lia; auto.
  destruct Hq; [contradiction | lia].
Qed.

(** An admitted request made with a count below 1 takes the free attempt. *)
Lemma handle_charges clk hour u st :
  u ∉ paid_users st ->
  fst (is_rate_limited (clk_limit clk) u st) = false ->
  default 0 (free_attempts st !! u) < 1 ->
  free_attempts (fst (handle_cooking_internal DISHES clk hour u st)) !! u
  = Some (default 0 (free_attempts st !! u) + 1).
Proof.
  intros Hp Hadm Hu.
  destruct (handle_outcome DISHES clk hour u st)
    as [last Hl Hlt|Ha Hp' Hu'|Ha Hq Hd|h d r Ha Hp'|h d Ha Hp'|h d Ha Hp' Hu']; simpl;
    try contradiction; try lia.
  - rewrite (is_rate_limited_limited _ _ _ _ Hl Hlt) in Hadm. discriminate.
  - unfold charged. rewrite (bool_decide_eq_false_2 _ Hp). simpl.
    apply lookup_insert_eq.
  - unfold charged. rewrite (bool_decide_eq_false_2 _ Hp). simpl.
    apply lookup_insert_eq.
Qed.

(** C1 (as amended): a cooking request of a user who is not entitled, once
    past the rate limit, is answered with the upsell prompt alone when the
    free-attempt count is at least 1, and nothing but the request time is
    written; with a lower count the count is increased by one.  Whether the
    rate limit lets it through or not, a request made with a count of at
    least 1 is answered with the wait notice or the upsell prompt; so is
    every request that follows an admitted one. *)
Theorem quota_gate (clk : Clock) (hour u : Z) (st : BotState) :
  u ∉ paid_users st ->
  let used := default 0 (free_attempts st !! u) in
  let res := handle_cooking_internal DISHES clk hour u st in
  (fst (is_rate_limited (clk_limit clk) u st) = false -> 1 <= used ->
   res = (with_last_request_time <[u := clk_limit clk]> st,
          [Answer msg_unlock (Some payment_kb)])) /\
  (fst (is_rate_limited (clk_limit clk) u st) = false -> used < 1 ->
   free_attempts (fst res) !! u = Some (used + 1)) /\
  (1 <= used ->
   snd res = [Answer msg_wait None] \/
   snd res = [Answer msg_unlock (Some payment_kb)]) /\
  (fst (is_rate_limited (clk_limit clk) u st) = false -> 0 <= used ->
   forall clk' hour',
     snd (handle_cooking_internal DISHES clk' hour' u (fst res))
     = [Answer msg_wait None] \/
     snd (handle_cooking_internal DISHES clk' hour' u (fst res))
     = [Answer msg_unlock (Some payment_kb)]).
Proof.
  intros Hp used res. subst used res. split; [|split; [|split]].
  - intros Hadm Hu. apply handle_must_pay; assumption.
  - intros Hadm Hu. apply handle_charges; assumption.
  - intros Hu. apply handle_blocked; assumption.
  - intros Hadm Hu clk' hour'. apply handle_blocked.
    + rewrite handle_paid_users. exact Hp.
    + destruct (Z.le_gt_cases 1 (default 0 (free_attempts st !! u))) as [H1|H1].
      * rewrite handle_must_pay by assumption. simpl. exact H1.
      * rewrite handle_charges by (assumption || lia). simpl. lia.
Qed.

(** C8 (as amended): a request made less than a minute after the time
    recorded for the user is answered with the wait notice and writes
    nothing at all; an admitted request records its own time; hence a
    request that follows an admitted one by less than a minute is turned
    away. *)
Theorem rate_limit_frame (clk : Clock) (hour u : Z) (st : BotState) :
  let res := handle_cooking_internal DISHES clk hour u st in
  (forall last, last_request_time st !! u = Some last ->
     clk_limit clk - last < minutes 1 ->
     res = (st, [Answer msg_wait None])) /\
  (last_request_time st !! u = None \/
   (exists last, last_request_time st !! u = Some last /\
                 minutes 1 <= clk_limit clk - last) ->
   last_request_time (fst res) !! u = Some (clk_limit clk)) /\
  (fst (is_rate_limited (clk_limit clk) u st) = false ->
   forall clk' hour', clk_limit clk' - clk_limit clk < minutes 1 ->
     handle_cooking_internal DISHES clk' hour' u (fst res)
     = (fst res, [Answer msg_wait None])).
Proof.
  cbv zeta. split; [|split].
  - intros last Hl Hlt. eapply handle_limited; eassumption.
  - intros Hadm.
    rewrite handle_last_request_time; [apply lookup_insert_eq|].
    destruct (is_rate_limited_cases (clk_limit clk) u st)
      as [(last & Hl & Hlt & _)|[_ ->]]; [|reflexivity].
    destruct Hadm as [Hn|(last' & Hl' & Hge)]; [congruence|].
    rewrite Hl in Hl'. injection Hl' as <-. lia.
  - intros Hadm clk' hour' Hlt.
    apply handle_limited with (last := clk_limit clk); [|exact Hlt].
    rewrite handle_last_request_time by exact Hadm. apply lookup_insert_eq.
Qed.

(** C6: granting access twice leaves the stores as granting it once does,
    and the second call only signals that access was already paid for.  A
    call for an entitled user writes nothing; a call for any other user
    adds the user to the paid set and removes the user's free-attempt
    count and cached response, and nothing else. *)
Theorem buy_access_idempotent (u : Z) (st : BotState) :
  let once := buy_access u st in
  let twice := buy_access u (fst once) in
  fst twice = fst once /\
  snd twice = [CallbackAnswer (Some msg_already_paid) true] /\
  (u ∈ paid_users st ->
   once = (st, [CallbackAnswer (Some msg_already_paid) true])) /\
  (u ∉ paid_users st ->
   fst once = mkState ({[u]} ∪ paid_users st) (delete u (free_attempts st))
                (last_request_time st) (delete u (last_response_cache st))
                (storage st) /\
   snd once = [EditText msg_activated (Some time_suggestion_kb);
               CallbackAnswer (Some msg_thanks) true]).
Proof.
  cbv zeta. destruct (decide (u ∈ paid_users st)) as [Hp|Hp].
  - assert (E : buy_access u st = (st, [CallbackAnswer (Some msg_already_paid) true])).
    { unfold buy_access. rewrite (bool_decide_eq_true_2 _ Hp). reflexivity. }
    rewrite E. simpl. rewrite E. simpl.
    repeat split; auto; intros; contradiction.
  - assert (E : buy_access u st
                = (mkState ({[u]} ∪ paid_users st) (delete u (free_attempts st))
                     (last_request_time st) (delete u (last_response_cache st))
                     (storage st),
                   [EditText msg_activated (Some time_suggestion_kb);
                    CallbackAnswer (Some msg_thanks) true])).
    { unfold buy_access. rewrite (bool_decide_eq_false_2 _ Hp). reflexivity. }
    rewrite E. simpl. unfold buy_access. simpl.
    rewrite bool_decide_eq_true_2 by set_solver. simpl.
    repeat split; auto; intros; contradiction.
Qed.

Lemma prefix_healthy data :
  String.prefix "healthy_" data = true ->
  String.prefix "suggest_" data = false /\ String.prefix "diet_" data = false /\
  String.eqb data "buy_access" = false.
Proof.
  intros H. apply prefix_cons_inv in H as (s & -> & _). repeat split; reflexivity.
Qed.

Lemma prefix_diet data :
  String.prefix "diet_" data = true ->
  String.prefix "suggest_" data = false /\ String.prefix "healthy_" data = false /\
  String.eqb data "buy_access" = false.
Proof.
  intros H. apply prefix_cons_inv in H as (s & -> & _). repeat split; reflexivity.
Qed.

(** C9: a health answer that arrives while the user is not being asked the
    health question, and a diet answer that arrives while the user is not
    being asked the diet question, is accepted by no handler: the stores
    stay as they are and nothing is sent. *)
Theorem stale_answer_dropped (clk : Clock) (u : Z) (data : string) (st : BotState) :
  (String.prefix "healthy_" data = true ->
   in_state asking_health u st = false ->
   dispatch DISHES clk (CallbackQuery u data) st = Some (st, [])) /\
  (String.prefix "diet_" data = true ->
   in_state asking_diet u st = false ->
   dispatch DISHES clk (CallbackQuery u data) st = Some (st, [])).
Proof.
  split; intros Hpre Hst; simpl.
  - destruct (prefix_healthy _ Hpre) as (-> & -> & ->). rewrite Hst. simpl.
    rewrite andb_false_r. reflexivity.
  - destruct (prefix_diet _ Hpre) as (-> & -> & ->). rewrite Hst. simpl.
    rewrite andb_false_r. reflexivity.
Qed.

End Gates.

(** ** Invariants of the stores *)

Section Invariants.

Variable DISHES : list Dish.

Lemma get_data_update_data u f st :
  get_data (update_data u f st) u = f (get_data st u).
Proof. unfold get_data, session, update_data. simpl. rewrite lookup_insert_eq. reflexivity. Qed.

Lemma storage_ask hour u st :
  storage (update_data u (put_pending_hour hour) (set_state u asking_health st))
  = <[u := mkSession (Some asking_health) (put_pending_hour hour (get_data st u))]>
      (storage st).
Proof.
  unfold update_data, set_state, get_data, session. simpl.
  rewrite lookup_insert_eq. simpl. rewrite insert_insert_eq. reflexivity.
Qed.

(** The stores after a cooking request, one store at a time. *)
Lemma handle_post clk hour u st :
  let used := default 0 (free_attempts st !! u) in
  let st' := fst (handle_cooking_internal DISHES clk hour u st) in
  paid_users st' = paid_users st /\
  (free_attempts st' = free_attempts st \/
   ((u ∉ paid_users st) /\ used < 1 /\
    free_attempts st' = <[u := used + 1]> (free_attempts st))) /\
  (storage st' = storage st \/
   ((u ∈ paid_users st \/
     (used < 1 /\ free_attempts st' = <[u := used + 1]> (free_attempts st))) /\
    storage st'
    = <[u := mkSession (Some asking_health) (put_pending_hour hour (get_data st u))]>
        (storage st))) /\
  (last_response_cache st' = last_response_cache st \/
   (u ∈ paid_users st /\
    exists healthy diet,
      data_diet (get_data st u) = Some diet /\
      last_response_cache st'
      = <[u := cache_entry (cache_key hour healthy diet)
                 (render (selection DISHES hour healthy diet)) (clk_cache clk)]>
          (last_response_cache st))).
Proof.
  cbv zeta.
  destruct (handle_outcome DISHES clk hour u st)
    as [last Hl Hlt|Ha Hp Hu|Ha Hq Hd|h d r Ha Hp Hh Hd Hc|h d Ha Hp Hh Hd Hc
        |h d Ha Hp Hu Hh Hd];
    cbn [fst].
  - repeat split; auto.
  - repeat split; auto.
  - rewrite storage_ask. unfold charged.
    destruct (decide (u ∈ paid_users st)) as [Hin|Hin].
    + rewrite (bool_decide_eq_true_2 _ Hin). repeat split; auto.
    + rewrite (bool_decide_eq_false_2 _ Hin).
      destruct Hq as [Hq|Hq]; [contradiction|].
      split; [reflexivity|]. split; [right; auto|].
      split; [|left; reflexivity].
      right. split; [right; split; [exact Hq | reflexivity] | reflexivity].
  - unfold charged. rewrite (bool_decide_eq_true_2 _ Hp). repeat split; auto.
  - unfold charged. rewrite (bool_decide_eq_true_2 _ Hp). repeat split; auto.
    right. split; [exact Hp|]. exists h, d. split; [exact Hd | reflexivity].
  - unfold charged. rewrite (bool_decide_eq_false_2 _ Hp). repeat split; auto.
Qed.

Lemma Inv_initial : Inv initial_state.
Proof.
  split; [|split; [|split]].
  - intros u n H. simpl in H. rewrite lookup_empty in H. discriminate.
  - intros u _ H. simpl in H. rewrite lookup_empty in H. contradiction.
  - intros u d H. unfold get_data, session in H. simpl in H.
    rewrite lookup_empty in H. discriminate.
  - intros u resp t H. simpl in H. rewrite lookup_empty in H. discriminate.
Qed.

Lemma used_zero st u :
  attempts_one st -> default 0 (free_attempts st !! u) < 1 ->
  default 0 (free_attempts st !! u) = 0.
Proof.
  intros Hone Hu. destruct (free_attempts st !! u) as [n|] eqn:E; simpl in *;
    [apply Hone in E; lia | reflexivity].
Qed.

Lemma get_data_insert_other (m : gmap Z Session) u v x st :
  u <> v -> storage st = <[u := x]> m ->
  get_data st v = fsm_data (default empty_session (m !! v)).
Proof.
  intros Hne Hs. unfold get_data, session. rewrite Hs.
  rewrite lookup_insert_ne by exact Hne. reflexivity.
Qed.

Lemma handle_inv clk hour u st :
  Inv st -> Inv (fst (handle_cooking_internal DISHES clk hour u st)).
Proof.
  intros (Hone & Hch & Hdv & Hwf).
  destruct (handle_post clk hour u st) as (Hpaid & Hfa & Hsto & Hca).
  set (st' := fst (handle_cooking_internal DISHES clk hour u st)) in *.
  assert (Hone' : attempts_one st').
  { intros v n Hv. destruct Hfa as [Hfa|(Hp & Hu & Hfa)]; rewrite Hfa in Hv.
    - eapply Hone; eassumption.
    - rewrite (used_zero _ _ Hone Hu) in Hv.
      destruct (decide (u = v)) as [->|Hne].
      + rewrite lookup_insert_eq in Hv. injection Hv as <-. reflexivity.
      + rewrite lookup_insert_ne in Hv by exact Hne. eapply Hone; eassumption. }
  assert (Hmono : forall v, 1 <= default 0 (free_attempts st !! v) ->
                            1 <= default 0 (free_attempts st' !! v)).
  { intros v Hv. destruct Hfa as [Hfa|(Hp & Hu & Hfa)]; rewrite Hfa; [exact Hv|].
    destruct (decide (u = v)) as [->|Hne]; [lia|].
    rewrite lookup_insert_ne by exact Hne. exact Hv. }
  split; [|split; [|split]].
  - exact Hone'.
  - intros v Hv Hs. rewrite Hpaid in Hv.
    destruct Hsto as [Hsto|(Hq & Hsto)]; rewrite Hsto in Hs.
    + apply Hmono. apply Hch; assumption.
    + destruct (decide (u = v)) as [->|Hne].
      * destruct Hq as [Hq|(Hu & Hfa')]; [contradiction|].
        rewrite Hfa', lookup_insert_eq. simpl.
        rewrite (used_zero _ _ Hone Hu). lia.
      * rewrite lookup_insert_ne in Hs by exact Hne.
        apply Hmono. apply Hch; assumption.
  - intros v d Hd. destruct Hsto as [Hsto|(Hq & Hsto)].
    + apply (Hdv v). unfold get_data, session in *. rewrite <- Hsto. exact Hd.
    + destruct (decide (u = v)) as [->|Hne].
      * apply (Hdv v). unfold get_data, session in Hd. rewrite Hsto in Hd.
        rewrite lookup_insert_eq in Hd. simpl in Hd. exact Hd.
      * apply (Hdv v).
        rewrite (get_data_insert_other _ _ _ _ _ Hne Hsto) in Hd. exact Hd.
  - intros v resp t Hv. rewrite Hpaid.
    destruct Hca as [Hca|(Hp & h & d & Hd & Hca)]; rewrite Hca in Hv.
    + apply (Hwf _ _ _ Hv).
    + destruct (decide (u = v)) as [->|Hne].
      * rewrite lookup_insert_eq in Hv. injection Hv as <- <-.
        split; [exact Hp|].
        exists hour, h, d, (render (selection DISHES hour h d)).
        split; [apply (Hdv _ _ Hd) | reflexivity].
      * rewrite lookup_insert_ne in Hv by exact Hne. apply (Hwf _ _ _ Hv).
Qed.

Lemma in_state_record s u st :
  in_state s u st = true -> storage st !! u <> None.
Proof.
  unfold in_state, session. intros H E. rewrite E in H. simpl in H. discriminate.
Qed.

(** Writing to the data of a user who already has a session record. *)
Lemma update_data_inv u f st :
  storage st !! u <> None ->
  (forall d x, data_diet (f d) = Some x -> data_diet d = Some x \/ In x diets) ->
  Inv st -> Inv (update_data u f st).
Proof.
  intros Hrec Hf (Hone & Hch & Hdv & Hwf). split; [|split; [|split]].
  - exact Hone.
  - intros v Hv Hs. simpl in *.
    destruct (decide (u = v)) as [->|Hne]; [apply Hch; assumption|].
    rewrite lookup_insert_ne in Hs by exact Hne. apply Hch; assumption.
  - intros v d Hd. destruct (decide (u = v)) as [->|Hne].
    + rewrite get_data_update_data in Hd.
      destruct (Hf _ _ Hd) as [Hd'|Hd']; [apply (Hdv _ _ Hd') | exact Hd'].
    + apply (Hdv v). unfold get_data, session, update_data in Hd. simpl in Hd.
      rewrite lookup_insert_ne in Hd by exact Hne. exact Hd.
  - exact Hwf.
Qed.

Lemma set_state_inv u s st :
  storage st !! u <> None -> Inv st -> Inv (set_state u s st).
Proof.
  intros Hrec (Hone & Hch & Hdv & Hwf). split; [|split; [|split]].
  - exact Hone.
  - intros v Hv Hs. simpl in *.
    destruct (decide (u = v)) as [->|Hne]; [apply Hch; assumption|].
    rewrite lookup_insert_ne in Hs by exact Hne. apply Hch; assumption.
  - intros v d Hd. apply (Hdv v). unfold get_data, session, set_state in *.
    simpl in Hd. destruct (decide (u = v)) as [->|Hne].
    + rewrite lookup_insert_eq in Hd. exact Hd.
    + rewrite lookup_insert_ne in Hd by exact Hne. exact Hd.
  - exact Hwf.
Qed.

Lemma clear_inv u st : Inv st -> Inv (clear u st).
Proof.
  intros (Hone & Hch & Hdv & Hwf). split; [|split; [|split]].
  - exact Hone.
  - intros v Hv Hs. simpl in *.
    destruct (decide (u = v)) as [->|Hne]; [rewrite lookup_delete_eq in Hs; contradiction|].
    rewrite lookup_delete_ne in Hs by exact Hne. apply Hch; assumption.
  - intros v d Hd. unfold get_data, session, clear in Hd. simpl in Hd.
    destruct (decide (u = v)) as [->|Hne].
    + rewrite lookup_delete_eq in Hd. discriminate.
    + rewrite lookup_delete_ne in Hd by exact Hne. apply (Hdv v). exact Hd.
  - exact Hwf.
Qed.

Lemma buy_access_inv u st : Inv st -> Inv (fst (buy_access u st)).
Proof.
  intros HI. unfold buy_access.
  destruct (decide (u ∈ paid_users st)) as [Hp|Hp].
  { rewrite (bool_decide_eq_true_2 _ Hp). exact HI. }
  rewrite (bool_decide_eq_false_2 _ Hp). simpl.
  destruct HI as (Hone & Hch & Hdv & Hwf). split; [|split; [|split]].
  - intros v n Hv. simpl in Hv. destruct (decide (u = v)) as [->|Hne].
    + rewrite lookup_delete_eq in Hv. discriminate.
    + rewrite lookup_delete_ne in Hv by exact Hne. eapply Hone; eassumption.
  - intros v Hv Hs. simpl in *.
    assert (Hne : u <> v) by set_solver.
    rewrite lookup_delete_ne by exact Hne. apply Hch; [set_solver | exact Hs].
  - exact Hdv.
  - intros v resp t Hv. simpl in *.
    destruct (decide (u = v)) as [->|Hne].
    + rewrite lookup_delete_eq in Hv. discriminate.
    + rewrite lookup_delete_ne in Hv by exact Hne.
      destruct (Hwf _ _ _ Hv) as [Hp' Hform].
      split; [apply elem_of_union; right; exact Hp' | exact Hform].
Qed.

Lemma process_health_inv u data st :
  in_state asking_health u st = true -> Inv st -> Inv (fst (process_health u data st)).
Proof.
  intros Hs HI. apply in_state_record in Hs. unfold process_health. simpl.
  apply set_state_inv.
  - simpl. rewrite lookup_insert_eq. discriminate.
  - apply update_data_inv; [exact Hs | | exact HI].
    intros d x Hx. left. exact Hx.
Qed.

Lemma process_diet_inv clk u data st res :
  in_state asking_diet u st = true -> Inv st ->
  process_diet DISHES clk u data st = Some res -> Inv (fst res).
Proof.
  intros Hs HI. apply in_state_record in Hs. unfold process_diet.
  destruct (diet_map data) as [d|] eqn:Hd; [|discriminate].
  match goal with |- context [handle_cooking_internal DISHES ?c ?h ?v ?s] =>
    pose proof (handle_inv c h v s) as Hh;
    destruct (handle_cooking_internal DISHES c h v s) as [st1 out] end.
  intros [= <-]. simpl. apply clear_inv. apply Hh.
  apply update_data_inv; [exact Hs | | exact HI].
  intros d0 x Hx. simpl in Hx. injection Hx as <-. right.
  eapply diet_map_diets; eassumption.
Qed.

Lemma step_inv st ev : Inv st -> Inv (step DISHES st ev).
Proof.
  intros HI. destruct ev as [clk [u|u text|u data]]; unfold step; simpl.
  - exact HI.
  - unfold handle_cooking_query. 
    pose proof (handle_inv clk (parse_hour_from_text (clk_hour clk) text) u st HI) as Hh.
    destruct (handle_cooking_internal _ _ _ _ _). exact Hh.
  - destruct (String.prefix "suggest_" data).
    { unfold handle_time_suggestion. destruct (time_map data) as [hour|]; [|exact HI].
      pose proof (handle_inv clk hour u st HI) as Hh.
      destruct (handle_cooking_internal _ _ _ _ _). exact Hh. }
    destruct (in_state asking_health u st) eqn:Hsh; simpl.
    { destruct (String.prefix "healthy_" data).
      - apply process_health_inv; assumption.
      - assert (in_state asking_diet u st = false) as ->.
        { unfold in_state in *. destruct (fsm_state (session st u)) as [[|]|];
            simpl in *; congruence. }
        simpl. destruct (String.eqb data "buy_access"); [|exact HI].
        apply buy_access_inv. exact HI. }
    destruct (in_state asking_diet u st) eqn:Hsd; simpl.
    { destruct (String.prefix "diet_" data).
      - destruct (process_diet DISHES clk u data st) as [res|] eqn:Hr; [|exact HI].
        pose proof (process_diet_inv _ _ _ _ _ Hsd HI Hr) as Hh.
        destruct res. exact Hh.
      - destruct (String.eqb data "buy_access"); [|exact HI].
        apply buy_access_inv. exact HI. }
    destruct (String.eqb data "buy_access"); [|exact HI].
    apply buy_access_inv. exact HI.
Qed.

Lemma run_inv evs st : Inv st -> Inv (run DISHES st evs).
Proof.
  revert st. induction evs as [|ev evs IH]; intros st HI; simpl; [exact HI|].
  apply IH. apply step_inv. exact HI.
Qed.

End Invariants.

(** ** Quota, cache and session: the remaining properties *)

Section Stores.

Variable DISHES : list Dish.

Lemma cache_tag_prefix key key0 rest :
  String.prefix (cache_tag key) (cache_tag key0 ++ rest) = String.prefix key (key0 ++ rest).
Proof. unfold cache_tag. rewrite str_app_assoc. apply prefix_app_same. Qed.

Lemma cached_reply_stored now u st hour healthy diet hour0 healthy0 diet0 text t0 r :
  In diet diets -> In diet0 diets ->
  last_response_cache st !! u
  = Some (cache_entry (cache_key hour0 healthy0 diet0) text t0) ->
  cached_reply now u (cache_key hour healthy diet) st = Some r <->
  u ∈ paid_users st /\ (hour, healthy, diet) = (hour0, healthy0, diet0) /\
  now - t0 < minutes 5 /\ r = text.
Proof.
  intros Hd Hd0 Hentry. unfold cached_reply, cache_entry in *. rewrite Hentry.
  unfold Str.startswith. rewrite cache_tag_prefix.
  destruct (decide (u ∈ paid_users st)) as [Hp|Hp];
    [rewrite (bool_decide_eq_true_2 _ Hp)
    |rewrite (bool_decide_eq_false_2 _ Hp); split; [discriminate | tauto]].
  destruct (Z.ltb_spec (now - t0) (minutes 5)) as [Hlt|Hge];
    [|split; [discriminate | lia]].
  destruct (String.prefix _ _) eqn:Hpre.
  - apply cache_key_prefix in Hpre as (-> & -> & ->); try assumption.
    change (true && true) with true. cbv iota.
    rewrite <- (str_app_assoc (cache_tag _) "||" text), replace_first_prefix.
    split; [intros Hr | intros (_ & _ & _ & ->); reflexivity].
    repeat split; try assumption. congruence.
  - split; [discriminate|].
    intros (_ & Heq & _). exfalso.
    assert (Hhit : String.prefix (cache_key hour healthy diet)
                     (cache_key hour0 healthy0 diet0 ++ "||" ++ text) = true).
    { injection Heq as -> -> ->. apply prefix_app_self. }
    rewrite Hhit in Hpre. discriminate.
Qed.

Lemma cached_reply_none now u key st :
  last_response_cache st !! u = None \/ u ∉ paid_users st ->
  cached_reply now u key st = None.
Proof.
  unfold cached_reply. intros [H|H].
  - rewrite H. destruct (bool_decide _); reflexivity.
  - rewrite (bool_decide_eq_false_2 _ H). reflexivity.
Qed.

(** C7: only entitled users read or write the cache.  Against an entry
    stored under the key of [(hour0, healthy0, diet0)] at [t0], the lookup
    for [(hour, healthy, diet)] at [now] returns the stored text exactly
    when the user is entitled, the three components are the same and
    [now - t0] is under five minutes, and misses otherwise, as it does
    without an entry.  A hit is sent as the reply and leaves the cache as
    it is; a miss of an entitled user overwrites the user's entry with the
    new reply, whatever was stored before.  Every entry of a reachable
    state was stored this way for an entitled user, and every diet of a
    reachable session is one of the three diets. *)
Theorem response_cache_semantics (clk : Clock) (hour u : Z) (st : BotState)
    (healthy : bool) (diet : string) :
  let key := cache_key hour healthy diet in
  let now := clk_cache clk in
  let res := handle_cooking_internal DISHES clk hour u st in
  (forall hour0 healthy0 diet0 text t0 r,
     In diet diets -> In diet0 diets ->
     last_response_cache st !! u
     = Some (cache_entry (cache_key hour0 healthy0 diet0) text t0) ->
     (cached_reply now u key st = Some r <->
      u ∈ paid_users st /\ (hour, healthy, diet) = (hour0, healthy0, diet0) /\
      now - t0 < minutes 5 /\ r = text)) /\
  (last_response_cache st !! u = None \/ (u ∉ paid_users st) ->
   cached_reply now u key st = None) /\
  (u ∉ paid_users st -> last_response_cache (fst res) = last_response_cache st) /\
  (fst (is_rate_limited (clk_limit clk) u st) = false ->
   u ∈ paid_users st ->
   data_healthy (get_data st u) = Some healthy ->
   data_diet (get_data st u) = Some diet ->
   match cached_reply now u key st with
   | Some r =>
       res = (with_last_request_time <[u := clk_limit clk]> st, [Answer r None])
   | None =>
       snd res = [Answer (render (selection DISHES hour healthy diet)) None] /\
       last_response_cache (fst res)
       = <[u := cache_entry key (render (selection DISHES hour healthy diet)) now]>
           (last_response_cache st)
   end) /\
  (forall evs, cache_wf (run DISHES initial_state evs) /\
               diets_valid (run DISHES initial_state evs)).
Proof.
  cbv zeta. split; [|split; [|split; [|split]]].
  - intros. apply cached_reply_stored; assumption.
  - apply cached_reply_none.
  - intros Hp. destruct (handle_post DISHES clk hour u st) as (_ & _ & _ & [H|[H _]]);
      [exact H | contradiction].
  - intros Hadm Hp Hh Hd.
    rewrite (handle_known DISHES _ _ _ _ healthy diet) by auto. cbv zeta.
    rewrite (bool_decide_eq_true_2 _ Hp). unfold charged.
    rewrite (bool_decide_eq_true_2 _ Hp).
    destruct (cached_reply _ _ _ _); [reflexivity | split; reflexivity].
  - intros evs.
    destruct (run_inv DISHES evs initial_state Inv_initial) as (_ & _ & Hdv & Hwf).
    split; assumption.
Qed.

Lemma handle_attempts_change clk hour v st u :
  AttemptsChange st (fst (handle_cooking_internal DISHES clk hour v st)) u.
Proof.
  destruct (handle_post DISHES clk hour v st) as (_ & [H|(Hp & Hu & H)] & _).
  - apply attempts_kept. rewrite H. reflexivity.
  - destruct (decide (v = u)) as [->|Hne].
    + apply attempts_used; try assumption. rewrite H. apply lookup_insert_eq.
    + apply attempts_kept. rewrite H. apply lookup_insert_ne. exact Hne.
Qed.

Lemma buy_access_attempts_change v st u :
  AttemptsChange st (fst (buy_access v st)) u.
Proof.
  unfold buy_access. destruct (decide (v ∈ paid_users st)) as [Hp|Hp].
  - rewrite (bool_decide_eq_true_2 _ Hp). apply attempts_kept. reflexivity.
  - rewrite (bool_decide_eq_false_2 _ Hp). simpl.
    destruct (decide (v = u)) as [->|Hne].
    + apply attempts_dropped; simpl; [exact Hp | set_solver | apply lookup_delete_eq].
    + apply attempts_kept. simpl. apply lookup_delete_ne. exact Hne.
Qed.

Lemma step_attempts_change st ev u : AttemptsChange st (step DISHES st ev) u.
Proof.
  destruct ev as [clk [v|v text|v data]]; unfold step; simpl.
  - apply attempts_kept. reflexivity.
  - unfold handle_cooking_query.
    pose proof (handle_attempts_change clk
                  (parse_hour_from_text (clk_hour clk) text) v st u) as Hh.
    destruct (handle_cooking_internal _ _ _ _ _). exact Hh.
  - destruct (String.prefix "suggest_" data).
    { unfold handle_time_suggestion.
      destruct (time_map data) as [hour|]; [|apply attempts_kept; reflexivity].
      pose proof (handle_attempts_change clk hour v st u) as Hh.
      destruct (handle_cooking_internal _ _ _ _ _). exact Hh. }
    destruct (in_state asking_health v st && String.prefix "healthy_" data).
    { apply attempts_kept. reflexivity. }
    destruct (in_state asking_diet v st && String.prefix "diet_" data).
    { unfold process_diet.
      destruct (diet_map data) as [d|]; [|apply attempts_kept; reflexivity].
      match goal with |- context [handle_cooking_internal DISHES ?c ?h ?w ?s] =>
        pose proof (handle_attempts_change c h w s u) as Hh;
        destruct (handle_cooking_internal DISHES c h w s) as [st1 out] end.
      simpl in *. destruct Hh as [H|Hp Hu H|Hp Hp' H];
        [apply attempts_kept | apply attempts_used | apply attempts_dropped];
        assumption. }
    destruct (String.eqb data "buy_access"); [|apply attempts_kept; reflexivity].
    apply buy_access_attempts_change.
Qed.

(** C10: in every state the bot can reach, a stored free-attempt count is
    1, hence never above 1; and whatever the state, an update leaves the
    count of a user as it is, or raises it by one for a user who is not
    entitled and whose count is below 1, or removes it as the user becomes
    entitled. *)
Theorem free_attempts_at_most_one (evs : list (Clock * Update)) (st : BotState)
    (ev : Clock * Update) (u : Z) :
  (forall n, free_attempts (run DISHES initial_state evs) !! u = Some n ->
             n = 1 /\ n <= 1) /\
  AttemptsChange st (step DISHES st ev) u /\
  ((forall v n, free_attempts st !! v = Some n -> n <= 1) ->
   forall v n, free_attempts (step DISHES st ev) !! v = Some n -> n <= 1).
Proof.
  split; [|split].
  - intros n Hn.
    destruct (run_inv DISHES evs initial_state Inv_initial) as (Hone & _).
    apply Hone in Hn. lia.
  - apply step_attempts_change.
  - intros Hle v n Hn.
    destruct (step_attempts_change st ev v) as [H|Hp Hu H|Hp Hp' H]; rewrite H in Hn.
    + eapply Hle; eassumption.
    + injection Hn as <-. lia.
    + discriminate.
Qed.

(** A user who is not entitled is never sent dishes: in a reachable state
    a cooking request ends at the rate limit, at the upsell prompt or at
    the health question. *)
Lemma free_user_never_served clk hour u evs :
  let st := run DISHES initial_state evs in
  u ∉ paid_users st ->
  snd (handle_cooking_internal DISHES clk hour u st) = [Answer msg_wait None] \/
  snd (handle_cooking_internal DISHES clk hour u st)
  = [Answer msg_unlock (Some payment_kb)] \/
  snd (handle_cooking_internal DISHES clk hour u st)
  = [Answer msg_ask_health (Some health_kb)].
Proof.
  intros st Hp.
  destruct (run_inv DISHES evs initial_state Inv_initial) as (_ & Hch & _).
  fold st in Hch.
  destruct (handle_outcome DISHES clk hour u st)
    as [last Hl Hlt|Ha Hp' Hu|Ha Hq Hd|h d r Ha Hp' Hh Hd Hc|h d Ha Hp' Hh Hd Hc
        |h d Ha Hp' Hu Hh Hd]; simpl; auto; try contradiction.
  exfalso. assert (Hrec : storage st !! u <> None).
  { intros E. unfold get_data, session in Hh. rewrite E in Hh. discriminate. }
  specialize (Hch u Hp Hrec). lia.
Qed.

(** The replay of [process_diet] for a user who is not entitled ends at the
    rate limit or at the upsell prompt. *)
Lemma free_replay_blocked clk u data evs res :
  let st := run DISHES initial_state evs in
  u ∉ paid_users st ->
  in_state asking_diet u st = true ->
  process_diet DISHES clk u data st = Some res ->
  snd res = [Answer msg_wait None; CallbackAnswer None false] \/
  snd res = [Answer msg_unlock (Some payment_kb); CallbackAnswer None false].
Proof.
  intros st Hp Hs. unfold process_diet.
  destruct (diet_map data) as [d|]; [|discriminate].
  destruct (run_inv DISHES evs initial_state Inv_initial) as (_ & Hch & _).
  fold st in Hch. specialize (Hch u Hp (in_state_record _ _ _ Hs)).
  match goal with |- context [handle_cooking_internal DISHES ?c ?h ?w ?s] =>
    pose proof (handle_outcome DISHES c h w s) as Ho;
    destruct (handle_cooking_internal DISHES c h w s) as [st1 out] end.
  intros [= <-]. simpl.
  inversion Ho as [last Hl Hlt|Ha Hp' Hu|Ha Hq Hd|h d' r Ha Hp' Hh Hd Hc
                   |h d' Ha Hp' Hh Hd Hc|h d' Ha Hp' Hu Hh Hd]; subst; simpl in *;
    auto; try contradiction; try lia.
  destruct Hq; [contradiction | lia].
Qed.

End Stores.

(** ** The free first request *)

(** C2: the first request of a user who is not entitled, for any catalog
    and any clock.  The first message is parsed as hour 8, takes the free attempt
    and asks the health question; after the two answers the replay of the
    request is stopped by the rate limit when the diet answer comes within
    a minute of the first message, and by the quota check otherwise.  No
    dish is sent, and the session is cleared. *)
Theorem free_request_replay (DISHES : list Dish) (c0 c1 c2 : Clock) :
  let text := "что приготовить на завтрак?" in
  let st := run DISHES initial_state
              [(c0, TextMessage 7 text); (c1, CallbackQuery 7 "healthy_no")] in
  let last := (c2, CallbackQuery 7 "diet_meat") in
  parse_hour_from_text (clk_hour c0) text = 8 /\
  replies DISHES initial_state (c0, TextMessage 7 text)
  = [Answer msg_ask_health (Some health_kb)] /\
  get_data st 7 = mkData (Some false) None (Some 8) /\
  in_state asking_diet 7 st = true /\
  replies DISHES st last
  = (if clk_limit c2 - clk_limit c0 <? minutes 1
     then [Answer msg_wait None; CallbackAnswer None false]
     else [Answer msg_unlock (Some payment_kb); CallbackAnswer None false]) /\
  storage (step DISHES st last) !! 7 = None.
Proof.
  cbv zeta. split; [vm_compute; reflexivity|].
  split; [vm_compute; reflexivity|].
  split; [vm_compute; reflexivity|].
  split; [vm_compute; reflexivity|].
  set (st := run DISHES initial_state _).
  set (st1 := update_data 7 (put_diet "meat") st).
  assert (Hh : in_state asking_health 7 st = false) by (vm_compute; reflexivity).
  assert (Hs : in_state asking_diet 7 st = true) by (vm_compute; reflexivity).
  assert (Hhour : default (clk_hour c2) (data_pending_hour (get_data st1 7)) = 8)
    by (vm_compute; reflexivity).
  assert (Hlast : last_request_time st1 !! 7 = Some (clk_limit c0))
    by (vm_compute; reflexivity).
  assert (Hpaid : 7 ∉ paid_users st1) by (vm_compute; set_solver).
  assert (Hused : default 0 (free_attempts st1 !! 7) = 1) by (vm_compute; reflexivity).
  assert (Hd : dispatch DISHES c2 (CallbackQuery 7 "diet_meat") st
               = let '(st2, out) := handle_cooking_internal DISHES c2 8 7 st1 in
                 Some (clear 7 st2, out ++ [CallbackAnswer None false])).
  { unfold dispatch.
    change (String.prefix "suggest_" "diet_meat") with false.
    change (String.prefix "diet_" "diet_meat") with true.
    rewrite Hh, Hs. cbn [andb]. unfold process_diet.
    change (diet_map "diet_meat") with (Some "meat"%string). cbv iota beta.
    fold st1. rewrite Hhour. reflexivity. }
  unfold replies, step. cbn [fst snd]. rewrite Hd. clear Hd.
  destruct (Z.ltb_spec (clk_limit c2 - clk_limit c0) (minutes 1)) as [Hlt|Hge].
  - rewrite (handle_limited DISHES c2 8 7 st1 _ Hlast Hlt).
    split; [reflexivity|]. simpl. apply lookup_delete_eq.
  - rewrite handle_must_pay; [split; [reflexivity|]; simpl; apply lookup_delete_eq | | | ].
    + unfold is_rate_limited. rewrite Hlast.
      destruct (Z.ltb_spec (clk_limit c2 - clk_limit c0) (minutes 1)); [lia | reflexivity].
    + exact Hpaid.
    + rewrite Hused. lia.
Qed.

(** ** The properties at concrete inputs *)

Lemma user7_not_paid_after_asking : 7 ∉ paid_users st_asked.
Proof. apply (proj1 (bool_decide_eq_false _)). vm_compute. reflexivity. Defined.

Lemma quota_gate_witness :
  (7 ∉ paid_users st_asked) /\
  handle_cooking_internal sample_DISHES (clock_at (minutes 2)) 19 7 st_asked
  = (with_last_request_time <[7 := minutes 2]> st_asked,
     [Answer msg_unlock (Some payment_kb)]).
Proof.
  split; [exact user7_not_paid_after_asking|].
  pose proof (quota_gate sample_DISHES (clock_at (minutes 2)) 19 7 st_asked
                user7_not_paid_after_asking) as (Hpay & _).
  apply Hpay.
  - vm_compute. reflexivity.
  - vm_compute. discriminate.
Defined.

(** Thirty seconds after the request that took the free attempt, the next
    request of the same user gets the wait notice, not the upsell prompt. *)
Lemma upsell_behind_rate_limit :
  (7 ∉ paid_users st_asked) /\
  1 <= default 0 (free_attempts st_asked !! 7) /\
  handle_cooking_internal sample_DISHES (clock_at (seconds 30)) 19 7 st_asked
  = (st_asked, [Answer msg_wait None]) /\
  snd (handle_cooking_internal sample_DISHES (clock_at (seconds 30)) 19 7 st_asked)
  <> [Answer msg_unlock (Some payment_kb)].
Proof.
  split; [exact user7_not_paid_after_asking|].
  split; [vm_compute; discriminate|].
  split; [vm_compute; reflexivity|].
  vm_compute. discriminate.
Qed.

Lemma filter_dishes_selection_witness :
  List.NoDup sample_DISHES /\
  List.NoDup (filter_dishes sample_DISHES 8 false "meat") /\
  map d_name (filter_dishes sample_DISHES 8 false "meat")
  = ["Яичница с беконом"; "Омлет"; "Сырники"]%string.
Proof.
  assert (H : List.NoDup sample_DISHES).
  { unfold sample_DISHES.
    repeat (constructor; [simpl; intuition discriminate|]). constructor. }
  split; [exact H|]. split; [|vm_compute; reflexivity].
  pose proof (filter_dishes_selection sample_DISHES 8 false "meat")
    as (_ & _ & _ & _ & _ & _ & Hnd & _ & _ & _ & _ & _).
  exact (Hnd H).
Defined.

Lemma buy_access_idempotent_witness :
  (7 ∉ paid_users st_asked) /\
  paid_users (fst (buy_access 7 st_asked)) = {[7]} ∪ paid_users st_asked /\
  free_attempts (fst (buy_access 7 st_asked)) !! 7 = None.
Proof.
  split; [exact user7_not_paid_after_asking|].
  destruct (buy_access_idempotent 7 st_asked) as (_ & _ & _ & H).
  destruct (H user7_not_paid_after_asking) as [-> _]. simpl.
  split; [reflexivity | apply lookup_delete_eq].
Defined.

Lemma response_cache_semantics_witness :
  let text := render (selection sample_DISHES 8 false "meat") in
  let key := cache_key 8 false "meat" in
  In "meat"%string diets /\
  last_response_cache st_cached !! 7 = Some (cache_entry key text (minutes 2)) /\
  cached_reply (minutes 2 + seconds 299) 7 key st_cached = Some text /\
  cached_reply (minutes 2 + seconds 301) 7 key st_cached = None /\
  cached_reply (minutes 2 + seconds 299) 7 (cache_key 9 false "meat") st_cached = None.
Proof.
  cbv zeta.
  assert (Hd : In "meat"%string diets) by (simpl; auto).
  assert (He : last_response_cache st_cached !! 7
               = Some (cache_entry (cache_key 8 false "meat")
                         (render (selection sample_DISHES 8 false "meat")) (minutes 2)))
    by (vm_compute; reflexivity).
  assert (Hp : 7 ∈ paid_users st_cached)
    by (apply (bool_decide_unpack _); vm_compute; exact I).
  split; [exact Hd|]. split; [exact He|]. split; [|split].
  - pose proof (response_cache_semantics sample_DISHES
                  (clock_at (minutes 2 + seconds 299)) 8 7 st_cached false "meat")
      as (Hit & _).
    apply (Hit 8 false "meat"%string _ (minutes 2) _ Hd Hd He).
    split; [exact Hp|]. split; [reflexivity|].
    split; [vm_compute; reflexivity | reflexivity].
  - destruct (cached_reply (minutes 2 + seconds 301) 7 _ st_cached) as [r|] eqn:E;
      [|reflexivity].
    pose proof (response_cache_semantics sample_DISHES
                  (clock_at (minutes 2 + seconds 301)) 8 7 st_cached false "meat")
      as (Hit & _).
    apply (Hit 8 false "meat"%string _ (minutes 2) r Hd Hd He) in E.
    destruct E as (_ & _ & E & _). vm_compute in E. discriminate.
  - destruct (cached_reply (minutes 2 + seconds 299) 7 _ st_cached) as [r|] eqn:E;
      [|reflexivity].
    pose proof (response_cache_semantics sample_DISHES
                  (clock_at (minutes 2 + seconds 299)) 9 7 st_cached false "meat")
      as (Hit & _).
    apply (Hit 8 false "meat"%string _ (minutes 2) r Hd Hd He) in E.
    destruct E as (_ & E & _). discriminate.
Defined.

Lemma rate_limit_frame_witness :
  last_request_time st_asked !! 7 = Some 0 /\
  seconds 30 - 0 < minutes 1 /\
  handle_cooking_internal sample_DISHES (clock_at (seconds 30)) 19 7 st_asked
  = (st_asked, [Answer msg_wait None]).
Proof.
  assert (Hl : last_request_time st_asked !! 7 = Some 0) by (vm_compute; reflexivity).
  assert (Hlt : seconds 30 - 0 < minutes 1) by (vm_compute; reflexivity).
  split; [exact Hl|]. split; [exact Hlt|].
  pose proof (rate_limit_frame sample_DISHES (clock_at (seconds 30)) 19 7 st_asked)
    as (Hlim & _).
  exact (Hlim 0 Hl Hlt).
Defined.

(** Three requests of one user at 0 s, 50 s and 70 s: the second is turned
    away and leaves no trace, so the third, 20 s after it, is admitted. *)
Lemma close_pair_second_admitted :
  let request t := (clock_at (seconds t), TextMessage 7 "ужин") in
  let st2 := run sample_DISHES initial_state [request 0; request 50] in
  replies sample_DISHES (run sample_DISHES initial_state [request 0]) (request 50)
  = [Answer msg_wait None] /\
  seconds 70 - seconds 50 < minutes 1 /\
  replies sample_DISHES st2 (request 70) = [Answer msg_unlock (Some payment_kb)] /\
  replies sample_DISHES st2 (request 70) <> [Answer msg_wait None] /\
  last_request_time (step sample_DISHES st2 (request 70)) !! 7 = Some (seconds 70).
Proof. vm_compute. repeat split; discriminate. Qed.

Lemma stale_answer_dropped_witness :
  String.prefix "diet_" "diet_meat" = true /\
  in_state asking_diet 7 st_asked = false /\
  dispatch sample_DISHES (clock_at (seconds 5)) (CallbackQuery 7 "diet_meat") st_asked
  = Some (st_asked, []).
Proof.
  assert (Hp : String.prefix "diet_" "diet_meat" = true) by reflexivity.
  assert (Hs : in_state asking_diet 7 st_asked = false) by (vm_compute; reflexivity).
  split; [exact Hp|]. split; [exact Hs|].
  pose proof (stale_answer_dropped sample_DISHES (clock_at (seconds 5)) 7
                "diet_meat" st_asked) as (_ & Hdiet).
  exact (Hdiet Hp Hs).
Defined.

Lemma free_attempts_at_most_one_witness :
  free_attempts st_asked !! 7 = Some 1 /\ (1 = 1 /\ 1 <= 1).
Proof.
  assert (H : free_attempts st_asked !! 7 = Some 1) by (vm_compute; reflexivity).
  split; [exact H|].
  pose proof (free_attempts_at_most_one sample_DISHES
                [(clock_at 0, TextMessage 7 "ужин")] initial_state
                (clock_at 0, StartCommand 7) 7) as (Hone & _).
  exact (Hone 1 H).
Defined.

(** ** Further properties of the time inference *)

Lemma occurs_contains (c : ascii) (s : string) :
  Str.occurs c s = true -> Str.contains (String c EmptyString) s = true.
Proof.
  induction s as [|b s IH]; simpl; [discriminate|].
  intros H. destruct (ascii_dec c b) as [->|Hne].
  - destruct s; reflexivity.
  - simpl. apply orb_true_iff in H as [H|H].
    + apply Ascii.eqb_eq in H. congruence.
    + exact (IH H).
Qed.

Lemma digit_in_word_lists (c : ascii) (d : Z) :
  Str.digit_value c = Some d ->
  In (String c EmptyString) morning_words \/ In (String c EmptyString) evening_words.
Proof.
  destruct c as [[] [] [] [] [] [] [] []]; vm_compute; intros H;
    try discriminate; intuition.
Qed.


Lemma digit_value_range (c : ascii) (d : Z) :
  Str.digit_value c = Some d -> (48 <= N_of_ascii c <= 57)%N.
Proof.
  unfold Str.digit_value.
  destruct (N.leb_spec 48 (N_of_ascii c)); destruct (N.leb_spec (N_of_ascii c) 57);
    simpl; intros Hv; try discriminate; lia.
Qed.

Lemma occurs_cons (c b : ascii) (s : string) :
  Str.occurs c (String b s) = Ascii.eqb b c || Str.occurs c s.
Proof. reflexivity. Qed.

Lemma eqb_out_of_range (a c : ascii) :
  (48 <= N_of_ascii c <= 57)%N -> (N_of_ascii a < 48 \/ 57 < N_of_ascii a)%N ->
  Ascii.eqb a c = false.
Proof.
  intros Hc Ha. destruct (Ascii.eqb a c) eqn:E; [|reflexivity].
  apply Ascii.eqb_eq in E. subst a. lia.
Qed.

Lemma byte_code (n : N) : (n < 256)%N -> N_of_ascii (Str.byte n) = n.
Proof. intros H. unfold Str.byte. apply N_ascii_embedding. exact H. Qed.

(** Lower-casing keeps the ASCII digits of a text. *)
Lemma lower_keeps_digit (c : ascii) (d : Z) (s : string) :
  Str.digit_value c = Some d ->
  Str.occurs c s = true -> Str.occurs c (Str.lower s) = true.
Proof.
  intros Hd. apply digit_value_range in Hd.
  assert (Hgen : forall n s, (String.length s <= n)%nat ->
                 Str.occurs c s = true -> Str.occurs c (Str.lower s) = true).
  { clear s. induction n as [|n IH]; intros s Hlen Hocc.
    { destruct s; [discriminate | simpl in Hlen; lia]. }
    destruct s as [|a rest]; [discriminate|].
    simpl in Hlen. rewrite occurs_cons in Hocc.
    cbn [Str.lower]. cbv zeta.
    destruct (N.leb_spec 65 (N_of_ascii a)) as [H65|H65];
      [destruct (N.leb_spec (N_of_ascii a) 90) as [H90|H90]|]; cbn [andb].
    - rewrite eqb_out_of_range in Hocc by (auto; lia). cbn [orb] in Hocc.
      rewrite occurs_cons. apply orb_true_iff. right. apply IH; [lia | exact Hocc].
    - destruct (N.eqb_spec (N_of_ascii a) 208) as [H208|H208].
      + rewrite eqb_out_of_range in Hocc by (auto; lia). cbn [orb] in Hocc.
        destruct rest as [|a2 rest']; [discriminate|].
        simpl in Hlen. rewrite occurs_cons in Hocc.
        assert (Hrest : Str.occurs c rest' = true ->
                        forall x y, Str.occurs c (String x (String y (Str.lower rest'))) = true).
        { intros Hr x y. rewrite !occurs_cons.
          rewrite (IH rest') by (lia || exact Hr). rewrite !orb_true_r. reflexivity. }
        cbv zeta.
        destruct (N.leb_spec 144 (N_of_ascii a2)) as [L1|L1];
          [destruct (N.leb_spec (N_of_ascii a2) 159) as [U1|U1]|]; cbn [andb].
        * rewrite eqb_out_of_range in Hocc by (auto; lia). apply Hrest. exact Hocc.
        * destruct (N.leb_spec 160 (N_of_ascii a2)) as [L2|L2]; [|lia].
          destruct (N.leb_spec (N_of_ascii a2) 175) as [U2|U2]; cbn [andb].
          -- rewrite eqb_out_of_range in Hocc by (auto; lia). apply Hrest. exact Hocc.
          -- destruct (N.leb_spec 128 (N_of_ascii a2)) as [L3|L3]; [|lia].
             destruct (N.leb_spec (N_of_ascii a2) 143) as [U3|U3]; [lia|]. cbn [andb].
             rewrite eqb_out_of_range in Hocc by (auto; lia). apply Hrest. exact Hocc.
        * destruct (N.leb_spec 160 (N_of_ascii a2)) as [L2|L2]; [lia|]. cbn [andb].
          destruct (N.leb_spec 128 (N_of_ascii a2)) as [L3|L3];
            [destruct (N.leb_spec (N_of_ascii a2) 143) as [U3|U3]|]; cbn [andb].
          -- rewrite eqb_out_of_range in Hocc by (auto; lia). apply Hrest. exact Hocc.
          -- lia.
          -- rewrite !occurs_cons. apply orb_true_iff in Hocc as [Hocc|Hocc].
             ++ rewrite Hocc. rewrite orb_true_r. reflexivity.
             ++ rewrite (IH rest') by (lia || exact Hocc). rewrite !orb_true_r. reflexivity.
      + rewrite occurs_cons. apply orb_true_iff in Hocc as [Hocc|Hocc].
        * rewrite Hocc. reflexivity.
        * rewrite (IH rest) by (lia || exact Hocc). apply orb_true_r.
    - assert ((N_of_ascii a =? 208)%N = false) as -> by (apply N.eqb_neq; lia).
      rewrite occurs_cons. apply orb_true_iff in Hocc as [Hocc|Hocc].
      + rewrite Hocc. reflexivity.
      + rewrite (IH rest) by (lia || exact Hocc). apply orb_true_r. }
  apply (Hgen (String.length s) s). lia.
Qed.

(** X1: The parsed hour is an hour of the day whenever the clock hour is
    one. *)
Theorem parse_hour_in_day (now : Z) (text : string) :
  0 <= now <= 23 -> 0 <= parse_hour_from_text now text <= 23.
Proof.
  intros Hnow. unfold parse_hour_from_text, parse_hour_lowered.
  destruct (any_in morning_words _); [lia|].
  destruct (any_in midday_words _); [lia|].
  destruct (any_in evening_words _); [lia|].
  destruct (Str.search_number _) as [h|]; [|exact Hnow].
  destruct (Z.leb_spec 0 h); destruct (Z.leb_spec h 23); simpl; lia.
Qed.

Lemma parse_hour_in_day_witness :
  0 <= 12 <= 23 /\ 0 <= parse_hour_from_text 12 "٢٥" <= 23.
Proof.
  assert (H : 0 <= 12 <= 23) by lia.
  split; [exact H|]. exact (parse_hour_in_day 12 "٢٥" H).
Defined.

(** Numbers written with the decimal digits of other scripts reach the
    pattern: they are read by their value, and dropped for the clock hour
    when they are no hour of the day. *)
Lemma parse_hour_other_scripts (now : Z) :
  parse_hour_from_text now "в ٥" = 5 /\
  parse_hour_from_text now "١٧:٣٠" = 17 /\
  parse_hour_from_text now "２３" = 23 /\
  parse_hour_from_text now "٢٥" = now /\
  parse_hour_from_text now "привет" = now.
Proof. repeat split; vm_compute; reflexivity. Qed.

(** X2: A text that holds an ASCII digit is settled by the keyword lists: the
    result is 8, 13 or 19; the number written in the text is not extracted
    and the clock is not consulted. *)
Theorem parse_hour_digit_by_keywords (now : Z) (text : string) (c : ascii) (d : Z) :
  Str.digit_value c = Some d ->
  Str.occurs c text = true ->
  parse_hour_from_text now text = 8 \/
  parse_hour_from_text now text = 13 \/
  parse_hour_from_text now text = 19.
Proof.
  intros Hd Hocc. apply (lower_keeps_digit c d text Hd) in Hocc.
  unfold parse_hour_from_text, parse_hour_lowered.
  destruct (any_in morning_words _) eqn:Hm; [auto|].
  destruct (any_in midday_words _) eqn:Hn; [auto|].
  destruct (any_in evening_words _) eqn:He; [auto|].
  exfalso. apply occurs_contains in Hocc.
  destruct (digit_in_word_lists c d Hd) as [Hin|Hin].
  - assert (any_in morning_words (Str.lower text) = true)
      by (apply any_in_exists; eauto). congruence.
  - assert (any_in evening_words (Str.lower text) = true)
      by (apply any_in_exists; eauto). congruence.
Qed.

Lemma parse_hour_digit_by_keywords_witness :
  Str.digit_value "1" = Some 1 /\
  Str.occurs "1" "Что сделать в 15:30?" = true /\
  (parse_hour_from_text 9 "Что сделать в 15:30?" = 8 \/
   parse_hour_from_text 9 "Что сделать в 15:30?" = 13 \/
   parse_hour_from_text 9 "Что сделать в 15:30?" = 19).
Proof.
  assert (Hd : Str.digit_value "1" = Some 1) by reflexivity.
  assert (Ho : Str.occurs "1" "Что сделать в 15:30?" = true)
    by (vm_compute; reflexivity).
  split; [exact Hd|]. split; [exact Ho|].
  exact (parse_hour_digit_by_keywords 9 "Что сделать в 15:30?" "1" 1 Hd Ho).
Defined.

(** ** Further properties of the dish selection *)

Section MoreSelection.

Variable DISHES : list Dish.

Lemma filter_nil_iff {A} (p : A -> bool) (l : list A) :
  List.filter p l = [] <-> forall x, In x l -> p x = false.
Proof.
  induction l as [|a l IH]; simpl; [tauto|].
  destruct (p a) eqn:Ha.
  - split; [discriminate|]. intros H. specialize (H a (or_introl eq_refl)). congruence.
  - rewrite IH. split.
    + intros H x [<-|Hx]; [exact Ha | exact (H x Hx)].
    + intros H x Hx. apply H. right. exact Hx.
Qed.

Lemma filter_dishes_nil_iff hour healthy diet :
  filter_dishes DISHES hour healthy diet = [] <->
  List.filter (slot_only (get_time_category hour)) DISHES = [].
Proof.
  rewrite <- !List.length_zero_iff_nil.
  rewrite filter_dishes_stages, List.length_firstn, stages_length. lia.
Qed.

(** X4: The selection is empty exactly when the catalog has no dish for the
    slot of the hour; the second selection made for an empty result, with
    [healthy = True] and [diet = "any"], is then empty as well, so the
    dishes of a reply are always those of the first selection. *)
Theorem selection_retry_is_empty (hour : Z) (healthy : bool) (diet : string) :
  (filter_dishes DISHES hour healthy diet = [] <->
   forall d, In d DISHES -> d_time d <> get_time_category hour) /\
  (filter_dishes DISHES hour healthy diet = [] ->
   firstn 3 (filter_dishes DISHES hour true "any") = []) /\
  selection DISHES hour healthy diet = filter_dishes DISHES hour healthy diet.
Proof.
  assert (Hiff : filter_dishes DISHES hour healthy diet = [] <->
                 forall d, In d DISHES -> d_time d <> get_time_category hour).
  { rewrite filter_dishes_nil_iff, filter_nil_iff. unfold slot_only.
    split; intros H d Hd; specialize (H d Hd).
    - intros E. apply String.eqb_eq in E. congruence.
    - apply String.eqb_neq. exact H. }
  assert (Hretry : filter_dishes DISHES hour healthy diet = [] ->
                   firstn 3 (filter_dishes DISHES hour true "any") = []).
  { intros H. apply filter_dishes_nil_iff in H.
    apply (filter_dishes_nil_iff hour true "any") in H. rewrite H. reflexivity. }
  split; [exact Hiff|]. split; [exact Hretry|].
  unfold selection. cbv zeta.
  destruct (filter_dishes DISHES hour healthy diet) eqn:E; [|reflexivity].
  apply Hretry. reflexivity.
Qed.

(** X5: Exact matches are never displaced by fallback dishes.  With [exact]
    the dishes of the slot that have the requested healthy flag and (unless
    the request is for any diet) the requested diet, and [others] the
    remaining dishes of the slot: with three or more exact matches the
    result is the first three of them, and every dish of the result has the
    requested fields; with fewer, all of them come first, every dish of the
    catalog with the requested fields is in the result, and the remaining
    places are filled with dishes of the slot that lack them. *)
Theorem filter_dishes_exact_first (hour : Z) (healthy : bool) (diet : string) :
  let time_cat := get_time_category hour in
  let exact :=
    List.filter
      (fun d => bool_decide
         (d_time d = time_cat /\ d_healthy d = healthy /\
          (diet = "any"%string \/ d_diet d = diet))) DISHES in
  let others :=
    List.filter
      (fun d => bool_decide
         (d_time d = time_cat /\
          ~ (d_healthy d = healthy /\ (diet = "any"%string \/ d_diet d = diet))))
      DISHES in
  let result := filter_dishes DISHES hour healthy diet in
  ((3 <= length exact)%nat ->
   result = firstn 3 exact /\
   forall d, In d result ->
     In d DISHES /\ d_time d = time_cat /\ d_healthy d = healthy /\
     (diet = "any"%string \/ d_diet d = diet)) /\
  ((length exact < 3)%nat ->
   result = exact ++ firstn (3 - length exact) others /\
   (forall d, In d DISHES -> d_time d = time_cat -> d_healthy d = healthy ->
      diet = "any"%string \/ d_diet d = diet -> In d result) /\
   (forall d, In d (firstn (3 - length exact) others) ->
      In d DISHES /\ d_time d = time_cat /\
      ~ (d_healthy d = healthy /\ (diet = "any"%string \/ d_diet d = diet)))) /\
  (forall d, In d exact <->
     In d DISHES /\ d_time d = time_cat /\ d_healthy d = healthy /\
     (diet = "any"%string \/ d_diet d = diet)) /\
  (forall d, In d others <->
     In d DISHES /\ d_time d = time_cat /\
     ~ (d_healthy d = healthy /\ (diet = "any"%string \/ d_diet d = diet))).
Proof.
  cbv zeta. rewrite exact_by_fields, others_by_fields.
  rewrite filter_dishes_stages, List.firstn_app.
  set (time_cat := get_time_category hour).
  assert (Hexact : forall d,
            In d (List.filter (exact_match time_cat healthy diet) DISHES) <->
            In d DISHES /\ d_time d = time_cat /\ d_healthy d = healthy /\
            (diet = "any"%string \/ d_diet d = diet)).
  { intros d. rewrite List.filter_In, exact_match_iff. reflexivity. }
  assert (Hothers : forall d,
            In d (List.filter (slot_not_exact time_cat healthy diet) DISHES) <->
            In d DISHES /\ d_time d = time_cat /\
            ~ (d_healthy d = healthy /\ (diet = "any"%string \/ d_diet d = diet))).
  { intros d. rewrite List.filter_In, slot_not_exact_iff. reflexivity. }
  split; [|split; [|split; [exact Hexact | exact Hothers]]].
  - intros Hlen. replace (3 - length _)%nat with 0%nat by lia.
    simpl. rewrite app_nil_r. split; [reflexivity|].
    intros d Hd. apply firstn_incl in Hd. apply Hexact. exact Hd.
  - intros Hlen. rewrite List.firstn_all2 by lia.
    split; [reflexivity|]. split.
    + intros d Hd Ht Hh Hdi. apply in_or_app. left. apply Hexact. tauto.
    + intros d Hd. apply firstn_incl in Hd. apply Hothers. exact Hd.
Qed.

End MoreSelection.

Lemma filter_dishes_exact_first_witness :
  (length
     (List.filter
        (fun d => bool_decide
           (d_time d = get_time_category 8 /\ d_healthy d = true /\
            ("any" = "any" \/ d_diet d = "any"))%string) sample_DISHES) < 3)%nat /\
  In (mkDish "Овсяная каша" "Варить 5 минут." "breakfast" true "veg")
     (filter_dishes sample_DISHES 8 true "any") /\
  map d_name (filter_dishes sample_DISHES 8 true "any")
  = ["Омлет"; "Овсяная каша"; "Сырники"]%string.
Proof.
  assert (H : (length
                 (List.filter
                    (fun d => bool_decide
                       (d_time d = get_time_category 8 /\ d_healthy d = true /\
                        ("any" = "any" \/ d_diet d = "any"))%string) sample_DISHES)
               < 3)%nat) by (vm_compute; lia).
  split; [exact H|]. split; [|vm_compute; reflexivity].
  pose proof (filter_dishes_exact_first sample_DISHES 8 true "any")
    as (_ & Hfew & _).
  destruct (Hfew H) as (_ & Hall & _).
  apply Hall.
  - unfold sample_DISHES. simpl. tauto.
  - reflexivity.
  - reflexivity.
  - left. reflexivity.
Defined.

Lemma selection_retry_is_empty_witness :
  filter_dishes (firstn 3 sample_DISHES) 20 true "meat" = [] /\
  firstn 3 (filter_dishes (firstn 3 sample_DISHES) 20 true "any") = [].
Proof.
  assert (H : filter_dishes (firstn 3 sample_DISHES) 20 true "meat" = [])
    by (vm_compute; reflexivity).
  split; [exact H|].
  pose proof (selection_retry_is_empty (firstn 3 sample_DISHES) 20 true "meat")
    as (_ & Hretry & _).
  exact (Hretry H).
Defined.

(** ** Further properties of the response cache *)

Lemma field_eq (c : ascii) (a a0 x y : string) :
  Str.occurs c a = false -> Str.occurs c a0 = false ->
  (a ++ String c x)%string = (a0 ++ String c y)%string ->
  a = a0 /\ x = y.
Proof.
  revert a0. induction a as [|b a IH]; intros [|b0 a0] Ha Ha0 H; simpl in *.
  - injection H as ->. split; reflexivity.
  - injection H as -> _. rewrite Ascii.eqb_refl in Ha0. discriminate.
  - injection H as -> _. rewrite Ascii.eqb_refl in Ha. discriminate.
  - injection H as -> H.
    apply orb_false_iff in Ha as [_ Ha]. apply orb_false_iff in Ha0 as [_ Ha0].
    destruct (IH a0 Ha Ha0 H) as [-> ->]. split; reflexivity.
Qed.

(** X7: The cache key determines the hour, the healthy flag and the diet it was
    built from: requests that differ in one of them, also two hours of the
    same slot, have different keys. *)
Theorem cache_key_injective (hour hour' : Z) (healthy healthy' : bool)
    (diet diet' : string) :
  cache_key hour healthy diet = cache_key hour' healthy' diet' ->
  hour = hour' /\ healthy = healthy' /\ diet = diet'.
Proof.
  unfold cache_key. intros H.
  change ("_" ++ ?x)%string with (String "_" x) in H.
  apply field_eq in H as [Hh H]; try apply of_int_no_underscore.
  apply of_int_inj in Hh.
  apply field_eq in H as [Hb H]; try (destruct healthy; reflexivity);
    try (destruct healthy'; reflexivity).
  split; [exact Hh|]. split; [|exact H].
  destruct healthy, healthy'; simpl in Hb; try discriminate; reflexivity.
Qed.

Lemma cache_key_injective_witness :
  cache_key 8 true "veg" = cache_key 8 true "veg" /\
  (8 = 8 /\ true = true /\ "veg"%string = "veg"%string).
Proof.
  assert (H : cache_key 8 true "veg" = cache_key 8 true "veg") by reflexivity.
  split; [exact H|]. exact (cache_key_injective 8 8 true true "veg" "veg" H).
Defined.

(** ** Keyboards: properties *)

Lemma callback_data_handled (kb : Keyboard) (data : string) :
  In data (callback_data kb) ->
  (String.prefix "suggest_" data = true /\ time_map data <> None) \/
  (String.prefix "suggest_" data = false /\ String.prefix "healthy_" data = true) \/
  (String.prefix "suggest_" data = false /\ String.prefix "diet_" data = true /\
   diet_map data <> None) \/
  data = "buy_access"%string.
Proof.
  destruct kb; simpl; intros H;
    repeat (destruct H as [<-|H]; [vm_compute; intuition discriminate|]);
    contradiction.
Qed.

(** X9: No button of the bot's own keyboards makes a handler raise: whatever
    the state, the update it sends is dispatched without a [KeyError]; a
    diet button pressed while the diet question is open always has a diet
    in [diet_map], a time button always has an hour in [time_map]. *)
Theorem keyboard_buttons_never_raise (DISHES : list Dish) (clk : Clock) (u : Z)
    (st : BotState) (kb : Keyboard) (data : string) :
  In data (callback_data kb) ->
  dispatch DISHES clk (CallbackQuery u data) st <> None /\
  (kb = diet_kb -> exists diet, diet_map data = Some diet /\ In diet diets) /\
  (kb = time_suggestion_kb -> exists hour, time_map data = Some hour /\ 0 <= hour <= 23).
Proof.
  intros Hin. split; [|split].
  - destruct (callback_data_handled kb data Hin)
      as [[Hs Ht]|[[Hs Hh]|[(Hs & Hd & Hm) | ->]]]; simpl.
    + rewrite Hs. unfold handle_time_suggestion.
      destruct (time_map data); [|contradiction].
      destruct (handle_cooking_internal _ _ _ _ _). discriminate.
    + rewrite Hs.
      destruct (in_state asking_health u st && String.prefix "healthy_" data);
        [discriminate|].
      destruct (prefix_healthy _ Hh) as (_ & -> & ->).
      rewrite andb_false_r. discriminate.
    + rewrite Hs.
      destruct (prefix_diet _ Hd) as (_ & -> & ->). rewrite andb_false_r.
      destruct (in_state asking_diet u st && String.prefix "diet_" data);
        [|discriminate].
      unfold process_diet. destruct (diet_map data); [|contradiction].
      destruct (handle_cooking_internal _ _ _ _ _). discriminate.
    + destruct (in_state asking_health u st), (in_state asking_diet u st);
        simpl; discriminate.
  - intros ->. simpl in Hin.
    repeat (destruct Hin as [<-|Hin];
            [eexists; split; [reflexivity | simpl; auto]|]).
    contradiction.
  - intros ->. simpl in Hin.
    repeat (destruct Hin as [<-|Hin];
            [eexists; split; [reflexivity | lia]|]).
    contradiction.
Qed.

Lemma keyboard_buttons_never_raise_witness :
  In "diet_fish"%string (callback_data diet_kb) /\
  dispatch sample_DISHES (clock_at 0) (CallbackQuery 7 "diet_fish") st_asked <> None.
Proof.
  assert (H : In "diet_fish"%string (callback_data diet_kb)) by (simpl; auto).
  split; [exact H|].
  exact (proj1 (keyboard_buttons_never_raise sample_DISHES (clock_at 0) 7 st_asked
                  diet_kb "diet_fish" H)).
Defined.

(** ** Sessions, entitlement and isolation *)

Section Sessions.

Variable DISHES : list Dish.

(** A property of the stores that every handler keeps is kept by every
    update. *)
Lemma step_preserves (P : BotState -> Prop) :
  (forall clk hour u st, Inv st -> P st ->
     P (fst (handle_cooking_internal DISHES clk hour u st))) ->
  (forall u data st, in_state asking_health u st = true -> P st ->
     P (fst (process_health u data st))) ->
  (forall clk u data st res, in_state asking_diet u st = true -> Inv st -> P st ->
     process_diet DISHES clk u data st = Some res -> P (fst res)) ->
  (forall u st, P st -> P (fst (buy_access u st))) ->
  forall st ev, Inv st -> P st -> P (step DISHES st ev).
Proof.
  intros Hhandle Hhealth Hdiet Hbuy st [clk [u|u text|u data]] HI HP;
    unfold step; simpl.
  - exact HP.
  - unfold handle_cooking_query.
    pose proof (Hhandle clk (parse_hour_from_text (clk_hour clk) text) u st HI HP) as Hh.
    destruct (handle_cooking_internal _ _ _ _ _). exact Hh.
  - destruct (String.prefix "suggest_" data).
    { unfold handle_time_suggestion. destruct (time_map data) as [hour|]; [|exact HP].
      pose proof (Hhandle clk hour u st HI HP) as Hh.
      destruct (handle_cooking_internal _ _ _ _ _). exact Hh. }
    destruct (in_state asking_health u st) eqn:Hsh;
      destruct (String.prefix "healthy_" data); cbn [andb].
    1: { apply Hhealth; assumption. }
    all: destruct (in_state asking_diet u st) eqn:Hsd;
      destruct (String.prefix "diet_" data); cbn [andb].
    all: try (destruct (String.eqb data "buy_access"); [apply Hbuy|]; exact HP).
    all: destruct (process_diet DISHES clk u data st) as [res|] eqn:Hr; [|exact HP].
    all: pose proof (Hdiet _ _ _ _ _ Hsd HI HP Hr) as Hh; destruct res; exact Hh.
Qed.

Lemma run_preserves (P : BotState -> Prop) :
  (forall clk hour u st, Inv st -> P st ->
     P (fst (handle_cooking_internal DISHES clk hour u st))) ->
  (forall u data st, in_state asking_health u st = true -> P st ->
     P (fst (process_health u data st))) ->
  (forall clk u data st res, in_state asking_diet u st = true -> Inv st -> P st ->
     process_diet DISHES clk u data st = Some res -> P (fst res)) ->
  (forall u st, P st -> P (fst (buy_access u st))) ->
  forall evs st, Inv st -> P st -> P (run DISHES st evs).
Proof.
  intros Hhandle Hhealth Hdiet Hbuy evs.
  induction evs as [|ev evs IH]; intros st HI HP; simpl; [exact HP|].
  apply IH; [apply step_inv; exact HI|].
  apply step_preserves; assumption.
Qed.

(** [process_diet] leaves the stores of its inner request with the session
    record of the user removed. *)
Lemma process_diet_result clk u data st res :
  process_diet DISHES clk u data st = Some res ->
  exists d hour,
    diet_map data = Some d /\
    hour = default (clk_hour clk)
             (data_pending_hour (get_data (update_data u (put_diet d) st) u)) /\
    fst res = clear u (fst (handle_cooking_internal DISHES clk hour u
                              (update_data u (put_diet d) st))) /\
    snd res = snd (handle_cooking_internal DISHES clk hour u
                     (update_data u (put_diet d) st))
              ++ [CallbackAnswer None false].
Proof.
  unfold process_diet. destruct (diet_map data) as [d|]; [|discriminate].
  destruct (handle_cooking_internal _ _ _ _ _) as [st1 out] eqn:E.
  intros [= <-]. exists d, (default (clk_hour clk)
             (data_pending_hour (get_data (update_data u (put_diet d) st) u))).
  rewrite E. repeat split; reflexivity.
Qed.

Lemma process_diet_storage clk u data st res :
  process_diet DISHES clk u data st = Some res ->
  storage (fst res) = delete u (storage st).
Proof.
  intros H. apply process_diet_result in H as (d & hour & _ & _ & -> & _).
  destruct (handle_post DISHES clk hour u (update_data u (put_diet d) st))
    as (_ & _ & [Hs|[_ Hs]] & _); simpl; rewrite Hs; simpl.
  - apply delete_insert_eq.
  - rewrite delete_insert_eq. apply delete_insert_eq.
Qed.

Lemma sessions_complete_run evs : sessions_complete (run DISHES initial_state evs).
Proof.
  apply (run_preserves sessions_complete); try apply Inv_initial.
  - intros clk hour u st _ HP v s Hv.
    destruct (handle_post DISHES clk hour u st) as (_ & _ & [Hs|[_ Hs]] & _);
      rewrite Hs in Hv; [exact (HP v s Hv)|].
    destruct (decide (u = v)) as [->|Hne];
      [|rewrite lookup_insert_ne in Hv by exact Hne; exact (HP v s Hv)].
    rewrite lookup_insert_eq in Hv. injection Hv as <-. simpl.
    repeat split; try discriminate.
    unfold get_data, session. destruct (storage st !! v) as [s|] eqn:E; simpl;
      [apply (HP v s E) | reflexivity].
  - intros u data st Hs HP v s Hv. unfold process_health in Hv. simpl in Hv.
    rewrite insert_insert_eq in Hv.
    destruct (decide (u = v)) as [->|Hne];
      [|rewrite lookup_insert_ne in Hv by exact Hne; exact (HP v s Hv)].
    rewrite lookup_insert_eq in Hv. injection Hv as <-. simpl.
    rewrite get_data_update_data. simpl.
    unfold get_data, in_state, session in *.
    destruct (storage st !! v) as [s0|] eqn:E; simpl in *; [|discriminate].
    destruct (HP v s0 E) as (_ & Hd & Hh & _).
    repeat split; try discriminate; assumption.
  - intros clk u data st res _ _ HP Hr v s Hv.
    rewrite (process_diet_storage _ _ _ _ _ Hr) in Hv.
    apply lookup_delete_Some in Hv as [_ Hv]. exact (HP v s Hv).
  - intros u st HP v s Hv. apply (HP v s).
    unfold buy_access in Hv. destruct (bool_decide _); exact Hv.
  - intros v s Hv. simpl in Hv. rewrite lookup_empty in Hv. discriminate.
Qed.

Lemma paid_no_attempts_run evs : paid_no_attempts (run DISHES initial_state evs).
Proof.
  apply (run_preserves paid_no_attempts); try apply Inv_initial.
  - intros clk hour u st _ HP v Hv. rewrite handle_paid_users in Hv.
    destruct (handle_post DISHES clk hour u st) as (_ & [Hf|(Hu & _ & Hf)] & _);
      rewrite Hf; [exact (HP v Hv)|].
    rewrite lookup_insert_ne; [exact (HP v Hv) | intros ->; contradiction].
  - intros u data st _ HP. exact HP.
  - intros clk u data st res _ _ HP Hr v Hv.
    apply process_diet_result in Hr as (d & hour & _ & _ & Hst & _).
    rewrite Hst in *. simpl in *. rewrite handle_paid_users in Hv.
    destruct (handle_post DISHES clk hour u (update_data u (put_diet d) st))
      as (_ & [Hf|(Hu & _ & Hf)] & _); rewrite Hf; simpl; [exact (HP v Hv)|].
    rewrite lookup_insert_ne; [exact (HP v Hv) | intros ->; contradiction].
  - intros u st HP v Hv. unfold buy_access in *.
    destruct (decide (u ∈ paid_users st)) as [Hp|Hp].
    + rewrite (bool_decide_eq_true_2 _ Hp) in *. exact (HP v Hv).
    + rewrite (bool_decide_eq_false_2 _ Hp) in *. simpl in *.
      destruct (decide (u = v)) as [->|Hne]; [apply lookup_delete_eq|].
      rewrite lookup_delete_ne by exact Hne. apply HP.
      apply elem_of_union in Hv as [Hv|Hv]; [|exact Hv].
      apply elem_of_singleton in Hv. congruence.
  - intros v Hv. simpl in Hv. apply elem_of_empty in Hv. contradiction.
Qed.

Lemma handle_cache_rendered clk hour u st :
  Inv st -> cache_rendered DISHES st ->
  cache_rendered DISHES (fst (handle_cooking_internal DISHES clk hour u st)).
Proof.
  intros (_ & _ & Hdv & _) HP v resp t Hv.
  destruct (handle_post DISHES clk hour u st)
    as (_ & _ & _ & [Hc|(_ & h & d & Hd & Hc)]); rewrite Hc in Hv;
    [exact (HP v resp t Hv)|].
  destruct (decide (u = v)) as [->|Hne];
    [|rewrite lookup_insert_ne in Hv by exact Hne; exact (HP v resp t Hv)].
  rewrite lookup_insert_eq in Hv. injection Hv as <- <-.
  exists hour, h, d. split; [exact (Hdv _ _ Hd) | reflexivity].
Qed.

Lemma cache_rendered_run evs : cache_rendered DISHES (run DISHES initial_state evs).
Proof.
  apply (run_preserves (cache_rendered DISHES)); try apply Inv_initial.
  - intros clk hour u st. apply handle_cache_rendered.
  - intros u data st _ HP. exact HP.
  - intros clk u data st res Hs HI HP Hr.
    apply process_diet_result in Hr as (d & hour & Hd & _ & Hst & _).
    rewrite Hst.
    apply (handle_cache_rendered clk hour u (update_data u (put_diet d) st));
      [|exact HP].
    apply update_data_inv; [exact (in_state_record _ _ _ Hs) | | exact HI].
    intros d0 x Hx. simpl in Hx. injection Hx as <-. right.
    eapply diet_map_diets; eassumption.
  - intros u st HP v resp t Hv. unfold buy_access in Hv.
    destruct (bool_decide _); [exact (HP v resp t Hv)|]. simpl in Hv.
    apply lookup_delete_Some in Hv as [_ Hv]. exact (HP v resp t Hv).
  - intros v resp t Hv. simpl in Hv. rewrite lookup_empty in Hv. discriminate.
Qed.

(** A hit returns the rendering of the selection for the key. *)
Lemma cached_reply_rendered now u st hour healthy diet r :
  cache_rendered DISHES st -> In diet diets ->
  cached_reply now u (cache_key hour healthy diet) st = Some r ->
  r = render (selection DISHES hour healthy diet).
Proof.
  intros HP Hd Hr.
  destruct (last_response_cache st !! u) as [[resp t]|] eqn:E.
  - destruct (HP u resp t E) as (h0 & b0 & d0 & Hd0 & Heq).
    rewrite Heq in E.
    apply (cached_reply_stored now u st hour healthy diet h0 b0 d0 _ t r Hd Hd0 E)
      in Hr as (_ & [= <- <- <-] & _ & ->). reflexivity.
  - rewrite cached_reply_none in Hr by (left; exact E). discriminate.
Qed.

(** No session record holds a diet, so a request that is not a replay finds
    the preferences incomplete. *)
Lemma no_stored_diet st u :
  sessions_complete st -> data_diet (get_data st u) = None.
Proof.
  intros HP. unfold get_data, session.
  destruct (storage st !! u) as [s|] eqn:E; simpl; [apply (HP u s E) | reflexivity].
Qed.

Lemma handle_direct clk hour u st :
  sessions_complete st ->
  snd (handle_cooking_internal DISHES clk hour u st) = [Answer msg_wait None] \/
  snd (handle_cooking_internal DISHES clk hour u st)
  = [Answer msg_unlock (Some payment_kb)] \/
  snd (handle_cooking_internal DISHES clk hour u st)
  = [Answer msg_ask_health (Some health_kb)].
Proof.
  intros HP. pose proof (no_stored_diet st u HP) as Hnone.
  destruct (handle_outcome DISHES clk hour u st)
    as [last Hl Hlt|Ha Hp' Hu|Ha Hq Hd|h d r Ha Hp' Hh Hd Hc|h d Ha Hp' Hh Hd Hc
        |h d Ha Hp' Hu Hh Hd]; simpl; auto; congruence.
Qed.

Lemma is_rate_limited_same_times now u st st' :
  last_request_time st' = last_request_time st ->
  fst (is_rate_limited now u st') = fst (is_rate_limited now u st).
Proof.
  intros H. unfold is_rate_limited. rewrite H.
  destruct (last_request_time st !! u) as [last|]; [|reflexivity].
  destruct (now - last <? minutes 1); reflexivity.
Qed.


(** X11: The replay of an entitled user: in a reachable state where the diet
    question is open, a diet answer that passes the rate limit is answered
    with the rendering of the selection for the stored hour, the stored
    health answer and the chosen diet, whether the text comes from the
    cache or is built anew; the cache then holds this text under the key
    of the request, and the session record is removed. *)
Theorem replay_serves_entitled (evs : list (Clock * Update)) (clk : Clock) (u : Z)
    (data diet : string) :
  let st := run DISHES initial_state evs in
  u ∈ paid_users st ->
  in_state asking_diet u st = true ->
  diet_map data = Some diet ->
  fst (is_rate_limited (clk_limit clk) u st) = false ->
  exists hour healthy st' t,
    data_pending_hour (get_data st u) = Some hour /\
    data_healthy (get_data st u) = Some healthy /\
    process_diet DISHES clk u data st
    = Some (st', [Answer (render (selection DISHES hour healthy diet)) None;
                  CallbackAnswer None false]) /\
    storage st' !! u = None /\
    last_response_cache st' !! u
    = Some (cache_entry (cache_key hour healthy diet)
              (render (selection DISHES hour healthy diet)) t).
Proof.
  intros st Hp Hs Hd Hadm.
  pose proof (sessions_complete_run evs) as Hsc. fold st in Hsc.
  pose proof (cache_rendered_run evs) as Hcr. fold st in Hcr.
  assert (Hdiets : In diet diets) by (eapply diet_map_diets; eassumption).
  destruct (storage st !! u) as [s|] eqn:E;
    [|unfold in_state, session in Hs; rewrite E in Hs; discriminate].
  destruct (Hsc u s E) as (_ & _ & Hhour & Hhealthy).
  assert (Hst : fsm_state s = Some asking_diet).
  { unfold in_state, session in Hs. rewrite E in Hs. simpl in Hs.
    destruct (fsm_state s) as [[|]|]; try discriminate. reflexivity. }
  specialize (Hhealthy Hst).
  destruct (data_pending_hour (fsm_data s)) as [hour|] eqn:Eh; [|contradiction].
  destruct (data_healthy (fsm_data s)) as [healthy|] eqn:Eb; [|contradiction].
  set (st1 := update_data u (put_diet diet) st).
  assert (Hdata : get_data st1 u = mkData (Some healthy) (Some diet) (Some hour)).
  { unfold st1. rewrite get_data_update_data. unfold get_data, session.
    rewrite E. simpl. unfold put_diet. rewrite Eh, Eb. reflexivity. }
  assert (Hk := handle_known DISHES clk hour u st1 healthy diet).
  assert (Hadm1 : fst (is_rate_limited (clk_limit clk) u st1) = false)
    by (rewrite (is_rate_limited_same_times _ _ st st1 eq_refl); exact Hadm).
  rewrite Hdata in Hk. specialize (Hk Hadm1 (or_introl Hp) eq_refl eq_refl).
  cbv zeta in Hk. change (paid_users st1) with (paid_users st) in Hk.
  rewrite (bool_decide_eq_true_2 _ Hp) in Hk.
  assert (Hch : charged (clk_limit clk) u st1 = admitted (clk_limit clk) u st1).
  { unfold charged. change (paid_users st1) with (paid_users st).
    rewrite (bool_decide_eq_true_2 _ Hp). reflexivity. }
  rewrite Hch in Hk.
  assert (Hproc : process_diet DISHES clk u data st
                  = let '(st2, out) := handle_cooking_internal DISHES clk hour u st1 in
                    Some (clear u st2, out ++ [CallbackAnswer None false])).
  { unfold process_diet. rewrite Hd. fold st1. rewrite Hdata. reflexivity. }
  assert (Hget_hour : data_pending_hour (get_data st u) = Some hour)
    by (unfold get_data, session; rewrite E; exact Eh).
  assert (Hget_healthy : data_healthy (get_data st u) = Some healthy)
    by (unfold get_data, session; rewrite E; exact Eb).
  exists hour, healthy.
  destruct (cached_reply (clk_cache clk) u (cache_key hour healthy diet) st1)
    as [r|] eqn:Ec.
  - assert (Hr : r = render (selection DISHES hour healthy diet)).
    { eapply cached_reply_rendered; [exact Hcr | exact Hdiets | exact Ec]. }
    subst r. rewrite Hk in Hproc.
    destruct (last_response_cache st !! u) as [[resp t]|] eqn:El;
      [|rewrite cached_reply_none in Ec by (left; exact El); discriminate].
    destruct (Hcr u resp t El) as (h0 & b0 & d0 & Hd0 & Heq).
    assert (El' : last_response_cache st1 !! u
                  = Some (cache_entry (cache_key h0 b0 d0)
                            (render (selection DISHES h0 b0 d0)) t))
      by (rewrite <- Heq; exact El).
    apply (cached_reply_stored _ _ _ _ _ _ _ _ _ _ _ _ Hdiets Hd0 El')
      in Ec as (_ & [= <- <- <-] & _ & _).
    eexists _, t.
    split; [exact Hget_hour|]. split; [exact Hget_healthy|].
    split; [exact Hproc|]. split; [simpl; apply lookup_delete_eq | exact El'].
  - rewrite Hk in Hproc.
    eexists _, (clk_cache clk).
    split; [exact Hget_hour|]. split; [exact Hget_healthy|].
    split; [exact Hproc|].
    split; [simpl; apply lookup_delete_eq | simpl; apply lookup_insert_eq].
Qed.

(** X12: A replay stopped by the rate limit discards the answers: whatever the
    state, a diet answer that comes less than a minute after the recorded
    request time gets the wait notice, and what is left is the state
    before it with the session record of the user removed. *)
Theorem replay_limited_discards_session (clk : Clock) (u : Z) (data diet : string)
    (st : BotState) (last : Z) :
  diet_map data = Some diet ->
  last_request_time st !! u = Some last ->
  clk_limit clk - last < minutes 1 ->
  process_diet DISHES clk u data st
  = Some (clear u st, [Answer msg_wait None; CallbackAnswer None false]).
Proof.
  intros Hd Hl Hlt. unfold process_diet. rewrite Hd.
  rewrite (handle_limited DISHES clk _ u (update_data u (put_diet diet) st) last Hl Hlt).
  unfold clear, update_data, with_storage. simpl.
  rewrite delete_insert_eq. reflexivity.
Qed.

Lemma untouched_refl v st : untouched v st st.
Proof. repeat split; auto. Qed.

Lemma untouched_trans v st1 st2 st3 :
  untouched v st1 st2 -> untouched v st2 st3 -> untouched v st1 st3.
Proof.
  intros (A1 & A2 & A3 & A4 & A5) (B1 & B2 & B3 & B4 & B5).
  split; [tauto|]. repeat split; congruence.
Qed.

Lemma storage_untouched v u f st :
  v <> u -> (forall w, w <> u -> f (storage st) !! w = storage st !! w) ->
  untouched v st (with_storage f st).
Proof. intros Hne Hf. repeat split; auto. Qed.

Lemma handle_untouched clk hour u st v :
  v <> u -> untouched v st (fst (handle_cooking_internal DISHES clk hour u st)).
Proof.
  intros Hne.
  destruct (handle_post DISHES clk hour u st) as (Hpaid & Hfa & Hsto & Hca).
  split; [rewrite Hpaid; tauto|]. split; [|split; [|split]].
  - destruct Hfa as [->|(_ & _ & ->)]; [reflexivity|].
    apply lookup_insert_ne. congruence.
  - destruct (is_rate_limited_cases (clk_limit clk) u st)
      as [(last & Hl & Hlt & _)|[_ Hadm]].
    + rewrite (handle_limited DISHES _ _ _ _ _ Hl Hlt). reflexivity.
    + rewrite handle_last_request_time by (rewrite Hadm; reflexivity).
      apply lookup_insert_ne. congruence.
  - destruct Hca as [->|(_ & h & d & _ & ->)]; [reflexivity|].
    apply lookup_insert_ne. congruence.
  - destruct Hsto as [->|[_ ->]]; [reflexivity|].
    apply lookup_insert_ne. congruence.
Qed.

Lemma buy_access_untouched u st v : v <> u -> untouched v st (fst (buy_access u st)).
Proof.
  intros Hne. unfold buy_access. destruct (bool_decide _); [apply untouched_refl|].
  repeat split; simpl; try (apply lookup_delete_ne; congruence); try reflexivity.
  - intros H. apply elem_of_union in H as [H|H]; [|exact H].
    apply elem_of_singleton in H. contradiction.
  - intros H. apply elem_of_union. right. exact H.
Qed.

(** X14: Users do not interfere: an update sent by one user leaves everything
    the stores hold about any other user as it was. *)
Theorem user_isolation (st : BotState) (ev : Clock * Update) (v : Z) :
  v <> user_of (snd ev) -> untouched v st (step DISHES st ev).
Proof.
  destruct ev as [clk [u|u text|u data]]; simpl; intros Hne; unfold step; simpl.
  - apply untouched_refl.
  - unfold handle_cooking_query.
    pose proof (handle_untouched clk (parse_hour_from_text (clk_hour clk) text) u st v Hne)
      as Hh.
    destruct (handle_cooking_internal _ _ _ _ _). exact Hh.
  - destruct (String.prefix "suggest_" data).
    { unfold handle_time_suggestion.
      destruct (time_map data) as [hour|]; [|apply untouched_refl].
      pose proof (handle_untouched clk hour u st v Hne) as Hh.
      destruct (handle_cooking_internal _ _ _ _ _). exact Hh. }
    destruct (in_state asking_health u st && String.prefix "healthy_" data).
    { unfold process_health. simpl.
      repeat split; auto; simpl.
      rewrite !lookup_insert_ne by congruence. reflexivity. }
    destruct (in_state asking_diet u st && String.prefix "diet_" data).
    { destruct (process_diet DISHES clk u data st) as [res|] eqn:Hr;
        [|apply untouched_refl].
      apply process_diet_result in Hr as (d & hour & _ & _ & Hst & _).
      destruct res as [st' out]. simpl in Hst. subst st'.
      apply untouched_trans with (st2 := update_data u (put_diet d) st).
      { apply (storage_untouched v u); [exact Hne|].
        intros w Hw. apply lookup_insert_ne. congruence. }
      eapply untouched_trans; [apply handle_untouched; exact Hne|].
      apply (storage_untouched v u); [exact Hne|].
      intros w Hw. apply lookup_delete_ne. congruence. }
    destruct (String.eqb data "buy_access"); [|apply untouched_refl].
    apply buy_access_untouched. exact Hne.
Qed.

Lemma step_paid_users st ev u :
  u ∈ paid_users st -> u ∈ paid_users (step DISHES st ev).
Proof.
  intros Hp. destruct ev as [clk [v|v text|v data]]; unfold step; simpl.
  - exact Hp.
  - unfold handle_cooking_query.
    pose proof (handle_paid_users DISHES clk
                  (parse_hour_from_text (clk_hour clk) text) v st) as Hh.
    destruct (handle_cooking_internal _ _ _ _ _). simpl in Hh. rewrite Hh. exact Hp.
  - destruct (String.prefix "suggest_" data).
    { unfold handle_time_suggestion. destruct (time_map data) as [hour|]; [|exact Hp].
      pose proof (handle_paid_users DISHES clk hour v st) as Hh.
      destruct (handle_cooking_internal _ _ _ _ _). simpl in Hh. rewrite Hh. exact Hp. }
    destruct (in_state asking_health v st && String.prefix "healthy_" data);
      [exact Hp|].
    destruct (in_state asking_diet v st && String.prefix "diet_" data).
    { destruct (process_diet DISHES clk v data st) as [res|] eqn:Hr; [|exact Hp].
      apply process_diet_result in Hr as (d & hour & _ & _ & Hst & _).
      destruct res as [st' out]. simpl in Hst. subst st'. simpl.
      rewrite handle_paid_users. exact Hp. }
    destruct (String.eqb data "buy_access"); [|exact Hp].
    unfold buy_access. destruct (bool_decide _); [exact Hp|]. simpl.
    apply elem_of_union. right. exact Hp.
Qed.

(** X15: Entitlement is permanent and frees the user of the quota: a user in
    the paid set stays in it whatever follows; in a reachable state such a
    user has no free-attempt count; a cooking request of such a user never
    gets the upsell prompt and leaves the counts alone. *)
Theorem entitlement_permanent (st : BotState) (evs : list (Clock * Update))
    (clk : Clock) (hour u : Z) :
  (u ∈ paid_users st -> u ∈ paid_users (run DISHES st evs)) /\
  (u ∈ paid_users (run DISHES initial_state evs) ->
   free_attempts (run DISHES initial_state evs) !! u = None) /\
  (u ∈ paid_users st ->
   snd (handle_cooking_internal DISHES clk hour u st)
   <> [Answer msg_unlock (Some payment_kb)] /\
   free_attempts (fst (handle_cooking_internal DISHES clk hour u st))
   = free_attempts st).
Proof.
  split; [|split].
  - revert st. induction evs as [|ev evs IH]; intros st Hp; simpl; [exact Hp|].
    apply IH. apply step_paid_users. exact Hp.
  - apply paid_no_attempts_run.
  - intros Hp. split.
    + destruct (handle_outcome DISHES clk hour u st)
        as [last Hl Hlt|Ha Hp' Hu|Ha Hq Hd|h d r Ha Hp' Hh Hd Hc|h d Ha Hp' Hh Hd Hc
            |h d Ha Hp' Hu Hh Hd]; simpl; try contradiction;
        intros [= _ Hkb]; discriminate.
    + destruct (handle_post DISHES clk hour u st) as (_ & [Hf|(Hu & _)] & _);
        [exact Hf | contradiction].
Qed.

(** X8: A cached text is never stale: in a reachable state a hit for the key of
    [(hour, healthy, diet)] returns what a new selection for the same
    request would be rendered to. *)
Theorem cache_hit_is_current (evs : list (Clock * Update)) (now u hour : Z)
    (healthy : bool) (diet r : string) :
  In diet diets ->
  cached_reply now u (cache_key hour healthy diet) (run DISHES initial_state evs)
  = Some r ->
  r = render (filter_dishes DISHES hour healthy diet).
Proof.
  intros Hd Hr.
  apply (cached_reply_rendered now u _ hour healthy diet r (cache_rendered_run evs) Hd)
    in Hr.
  rewrite Hr. f_equal. unfold selection. cbv zeta.
  destruct (filter_dishes DISHES hour healthy diet) eqn:E; [|reflexivity].
  apply filter_dishes_nil_iff in E.
  apply (filter_dishes_nil_iff DISHES hour true "any") in E. rewrite E. reflexivity.
Qed.

Lemma dish_reply_answer text kb :
  dish_reply (Answer text kb) -> String.prefix msg_ideas text = true.
Proof. intros (t & k & [= -> ->] & H). exact H. Qed.

Lemma fixed_replies_no_dishes r :
  In r [Answer msg_wait None; Answer msg_unlock (Some payment_kb);
        Answer msg_ask_health (Some health_kb);
        Answer msg_start (Some time_suggestion_kb);
        EditText msg_ask_diet (Some diet_kb); CallbackAnswer None false;
        EditText msg_activated (Some time_suggestion_kb);
        CallbackAnswer (Some msg_thanks) true;
        CallbackAnswer (Some msg_already_paid) true] ->
  ~ dish_reply r.
Proof.
  intros Hin Hd. simpl in Hin.
  repeat (destruct Hin as [<-|Hin];
          [first [apply dish_reply_answer in Hd; vm_compute in Hd; discriminate
                 |destruct Hd as (t & k & Hd & _); discriminate]|]).
  contradiction.
Qed.

Lemma direct_no_dishes clk hour u st r :
  sessions_complete st ->
  In r (snd (handle_cooking_internal DISHES clk hour u st)
        ++ [CallbackAnswer None false]) ->
  ~ dish_reply r.
Proof.
  intros HP Hin. apply fixed_replies_no_dishes.
  apply in_app_or in Hin as [Hin|Hin].
  - destruct (handle_direct clk hour u st HP) as [H|[H|H]]; rewrite H in Hin;
      simpl in Hin; destruct Hin as [<-|[]]; simpl; auto.
  - simpl in Hin. destruct Hin as [<-|[]]. simpl. auto 10.
Qed.

(** X13: Dishes are sent in one situation only: in a reachable state, a reply
    that opens with the headline of the dish list answers a diet button,
    pressed while the diet question is open, by a user who is entitled. *)
Theorem dishes_only_after_diet_answer (evs : list (Clock * Update)) (clk : Clock)
    (upd : Update) (r : Reply) :
  let st := run DISHES initial_state evs in
  In r (replies DISHES st (clk, upd)) -> dish_reply r ->
  exists data,
    upd = CallbackQuery (user_of upd) data /\
    String.prefix "diet_" data = true /\
    in_state asking_diet (user_of upd) st = true /\
    user_of upd ∈ paid_users st.
Proof.
  intros st Hin Hdish.
  pose proof (sessions_complete_run evs) as Hsc. fold st in Hsc.
  assert (Hfixed : forall l, In r l ->
            (forall x, In x l ->
               In x [Answer msg_wait None; Answer msg_unlock (Some payment_kb);
                     Answer msg_ask_health (Some health_kb);
                     Answer msg_start (Some time_suggestion_kb);
                     EditText msg_ask_diet (Some diet_kb); CallbackAnswer None false;
                     EditText msg_activated (Some time_suggestion_kb);
                     CallbackAnswer (Some msg_thanks) true;
                     CallbackAnswer (Some msg_already_paid) true]) -> False).
  { intros l Hl Hall. exact (fixed_replies_no_dishes r (Hall r Hl) Hdish). }
  unfold replies in Hin. cbn [fst snd] in Hin.
  destruct upd as [u|u text|u data]; cbn [dispatch user_of] in *.
  - exfalso. apply (Hfixed _ Hin). simpl. intuition.
  - exfalso. unfold handle_cooking_query in Hin.
    assert (Hin' : In r (snd (handle_cooking_internal DISHES clk
                               (parse_hour_from_text (clk_hour clk) text) u st)
                         ++ [CallbackAnswer None false]))
      by (apply in_or_app; left;
          destruct (handle_cooking_internal _ _ _ _ _); exact Hin).
    exact (direct_no_dishes _ _ _ _ _ Hsc Hin' Hdish).
  - destruct (String.prefix "suggest_" data).
    { exfalso. unfold handle_time_suggestion in Hin.
      destruct (time_map data) as [hour|]; [|contradiction].
      assert (Hin' : In r (snd (handle_cooking_internal DISHES clk hour u st)
                           ++ [CallbackAnswer None false]))
        by (destruct (handle_cooking_internal _ _ _ _ _); exact Hin).
      exact (direct_no_dishes _ _ _ _ _ Hsc Hin' Hdish). }
    destruct (in_state asking_health u st && String.prefix "healthy_" data).
    { exfalso. apply (Hfixed _ Hin). simpl. intuition. }
    destruct (in_state asking_diet u st) eqn:Hs;
      destruct (String.prefix "diet_" data) eqn:Hpre; cbn [andb] in Hin.
    2-4: exfalso; destruct (String.eqb data "buy_access");
         [|contradiction]; unfold buy_access in Hin; destruct (bool_decide _);
         apply (Hfixed _ Hin); simpl; intuition.
    exists data. split; [reflexivity|]. split; [exact Hpre|]. split; [reflexivity|].
    destruct (decide (u ∈ paid_users st)) as [Hp|Hp]; [exact Hp|]. exfalso.
    destruct (process_diet DISHES clk u data st) as [[st' out]|] eqn:Hr;
      [|contradiction].
    destruct (free_replay_blocked DISHES clk u data evs _ Hp Hs Hr) as [H|H];
      simpl in H; subst out; apply (Hfixed _ Hin); simpl; intuition.
Qed.


End Sessions.

(** ** The text of a reply and the slot of a request *)

Lemma str_app_nil_r (s : string) : (s ++ "")%string = s.
Proof.
  induction s as [|c s IH]; [reflexivity|].
  change (String c (s ++ "") = String c s)%string. f_equal. exact IH.
Qed.

Lemma contains_prefix (w s : string) :
  String.prefix w s = true -> Str.contains w s = true.
Proof. intros H. destruct s; simpl in *; rewrite H; reflexivity. Qed.

Lemma contains_app_r (w a s : string) :
  Str.contains w s = true -> Str.contains w (a ++ s) = true.
Proof.
  intros H. induction a as [|c a IH]; [exact H|].
  change (Str.contains w (String c (a ++ s)) = true).
  cbn [Str.contains]. rewrite IH. apply orb_true_r.
Qed.

Lemma prefix_app_l (w s b : string) :
  String.prefix w s = true -> String.prefix w (s ++ b) = true.
Proof.
  revert s. induction w as [|c w IH]; intros s H; [apply prefix_nil|].
  apply prefix_cons_inv in H as (s' & -> & H).
  change (String.prefix (String c w) (String c (s' ++ b)) = true).
  rewrite prefix_cons_same. apply IH. exact H.
Qed.

Lemma contains_app_l (w s b : string) :
  Str.contains w s = true -> Str.contains w (s ++ b) = true.
Proof.
  induction s as [|c s IH]; intros H.
  - simpl in H. rewrite orb_false_r in H.
    apply contains_prefix. apply (prefix_app_l w "" b). exact H.
  - change (Str.contains w (String c (s ++ b)) = true).
    cbn [Str.contains] in *. apply orb_true_iff in H as [H|H].
    + change (String c (s ++ b)) with (String c s ++ b)%string.
      rewrite (prefix_app_l _ _ b H). reflexivity.
    + rewrite (IH H). apply orb_true_r.
Qed.

Lemma contains_middle (w a b : string) : Str.contains w (a ++ w ++ b) = true.
Proof. apply contains_app_r, contains_prefix, prefix_app_self. Qed.

Lemma dish_blocks_cons (d : Dish) (ds : list Dish) :
  dish_blocks (d :: ds) = (dish_block d ++ dish_blocks ds)%string.
Proof. reflexivity. Qed.

Lemma render_fold (ds : list Dish) (acc : string) :
  fold_left
    (fun reply d =>
       (reply ++ "🔥 " ++ d_name d ++ Str.nl ++ d_recipe d ++ Str.nl ++ Str.nl)%string)
    ds acc
  = (acc ++ dish_blocks ds)%string.
Proof.
  revert acc. induction ds as [|d ds IH]; intros acc.
  - symmetry. apply str_app_nil_r.
  - cbn [fold_left]. rewrite IH. rewrite dish_blocks_cons.
    fold (dish_block d). apply str_app_assoc.
Qed.

Lemma dish_blocks_contains (ds : list Dish) (d : Dish) (w : string) :
  In d ds -> Str.contains w (dish_block d) = true ->
  Str.contains w (dish_blocks ds) = true.
Proof.
  intros Hd Hw. induction ds as [|e ds IH]; [destruct Hd|].
  rewrite dish_blocks_cons. destruct Hd as [->|Hd].
  - apply contains_app_l. exact Hw.
  - apply contains_app_r. exact (IH Hd).
Qed.

Lemma contains_refl (w : string) : Str.contains w w = true.
Proof.
  apply contains_prefix. rewrite <- (str_app_nil_r w) at 2. apply prefix_app_self.
Qed.

(** X6: The reply built for a list of dishes is the headline followed by the
    lines of each dish in the order of the list, so it names every dish of
    the list together with its recipe. *)
Theorem render_lists_every_dish (ds : list Dish) :
  render ds = (msg_ideas ++ dish_blocks ds)%string /\
  forall d, In d ds ->
    Str.contains (dish_block d) (render ds) = true /\
    Str.contains (d_name d) (render ds) = true /\
    Str.contains (d_recipe d) (render ds) = true.
Proof.
  assert (Hr : render ds = (msg_ideas ++ dish_blocks ds)%string)
    by (unfold render; apply render_fold).
  split; [exact Hr|]. intros d Hd. rewrite Hr.
  assert (Hsub : forall w, Str.contains w (dish_block d) = true ->
                           Str.contains w (msg_ideas ++ dish_blocks ds) = true).
  { intros w Hw. apply contains_app_r. exact (dish_blocks_contains ds d w Hd Hw). }
  split; [apply Hsub, contains_refl|]. split; apply Hsub; unfold dish_block.
  - apply (contains_middle (d_name d) "🔥 ").
  - rewrite <- (str_app_assoc "🔥 " (d_name d)).
    rewrite <- (str_app_assoc ("🔥 " ++ d_name d) Str.nl).
    apply contains_middle.
Qed.

Lemma render_lists_every_dish_witness :
  let ds := filter_dishes sample_DISHES 8 false "meat" in
  let d := mkDish "Омлет" "Взбить яйца и обжарить." "breakfast" true "veg" in
  In d ds /\ Str.contains (d_name d) (render ds) = true.
Proof.
  cbv zeta.
  assert (H : In (mkDish "Омлет" "Взбить яйца и обжарить." "breakfast" true "veg")
                (filter_dishes sample_DISHES 8 false "meat"))
    by (vm_compute; auto).
  split; [exact H|].
  exact (proj1 (proj2 (proj2 (render_lists_every_dish _) _ H))).
Defined.

(** X3: The hours the bot infers fall into the slots they are named after: a
    text with a morning word is served from the breakfast slot, one with a
    midday word (and no morning word) from the lunch slot, one with an
    evening word (and neither of the others) from the dinner slot; and a
    time button carries the name of the slot its hour falls into. *)
Theorem inferred_hours_match_slots (now : Z) (text data : string) (hour : Z) :
  let t := Str.lower text in
  (any_in morning_words t = true ->
   get_time_category (parse_hour_from_text now text) = "breakfast"%string) /\
  (any_in morning_words t = false -> any_in midday_words t = true ->
   get_time_category (parse_hour_from_text now text) = "lunch"%string) /\
  (any_in morning_words t = false -> any_in midday_words t = false ->
   any_in evening_words t = true ->
   get_time_category (parse_hour_from_text now text) = "dinner"%string) /\
  (time_map data = Some hour ->
   data = ("suggest_" ++ get_time_category hour)%string).
Proof.
  cbv zeta. unfold parse_hour_from_text, parse_hour_lowered.
  split; [|split; [|split]].
  - intros ->. reflexivity.
  - intros -> ->. reflexivity.
  - intros -> -> ->. reflexivity.
  - unfold time_map.
    destruct (String.eqb_spec data "suggest_breakfast") as [->|_];
      [intros [= <-]; reflexivity|].
    destruct (String.eqb_spec data "suggest_lunch") as [->|_];
      [intros [= <-]; reflexivity|].
    destruct (String.eqb_spec data "suggest_dinner") as [->|_];
      [intros [= <-]; reflexivity | discriminate].
Qed.

Lemma inferred_hours_match_slots_witness :
  any_in morning_words (Str.lower "Рецепт на завтрак") = true /\
  get_time_category (parse_hour_from_text 21 "Рецепт на завтрак") = "breakfast"%string.
Proof.
  assert (H : any_in morning_words (Str.lower "Рецепт на завтрак") = true)
    by (vm_compute; reflexivity).
  split; [exact H|].
  exact (proj1 (inferred_hours_match_slots 21 "Рецепт на завтрак" "" 0) H).
Defined.

(** ** The further properties at concrete inputs *)

Lemma user7_paid_diet_open : 7 ∈ paid_users (run sample_DISHES initial_state evs_diet_open).
Proof. apply (bool_decide_unpack _). vm_compute. exact I. Defined.


Lemma replay_serves_entitled_witness :
  let st := run sample_DISHES initial_state evs_diet_open in
  7 ∈ paid_users st /\
  in_state asking_diet 7 st = true /\
  diet_map "diet_meat" = Some "meat"%string /\
  fst (is_rate_limited (minutes 2) 7 st) = false /\
  exists st',
    process_diet sample_DISHES (clock_at (minutes 2)) 7 "diet_meat" st
    = Some (st', [Answer (render (selection sample_DISHES 8 false "meat")) None;
                  CallbackAnswer None false]).
Proof.
  cbv zeta.
  assert (Hs : in_state asking_diet 7 (run sample_DISHES initial_state evs_diet_open) = true)
    by (vm_compute; reflexivity).
  assert (Hd : diet_map "diet_meat" = Some "meat"%string) by reflexivity.
  assert (Ha : fst (is_rate_limited (clk_limit (clock_at (minutes 2))) 7
                      (run sample_DISHES initial_state evs_diet_open)) = false)
    by (vm_compute; reflexivity).
  split; [exact user7_paid_diet_open|]. split; [exact Hs|]. split; [exact Hd|].
  split; [exact Ha|].
  destruct (replay_serves_entitled sample_DISHES evs_diet_open (clock_at (minutes 2)) 7
              "diet_meat" "meat" user7_paid_diet_open Hs Hd Ha)
    as (hour & healthy & st' & t & Hh & Hb & Hp & _).
  assert (Eh : hour = 8) by (vm_compute in Hh; congruence).
  assert (Eb : healthy = false) by (vm_compute in Hb; congruence).
  subst hour healthy. exists st'. exact Hp.
Defined.

Lemma replay_limited_discards_session_witness :
  let st := run sample_DISHES initial_state evs_diet_open in
  diet_map "diet_meat" = Some "meat"%string /\
  last_request_time st !! 7 = Some 0 /\
  seconds 10 - 0 < minutes 1 /\
  process_diet sample_DISHES (clock_at (seconds 10)) 7 "diet_meat" st
  = Some (clear 7 st, [Answer msg_wait None; CallbackAnswer None false]).
Proof.
  cbv zeta.
  assert (Hd : diet_map "diet_meat" = Some "meat"%string) by reflexivity.
  assert (Hl : last_request_time (run sample_DISHES initial_state evs_diet_open) !! 7
               = Some 0) by (vm_compute; reflexivity).
  assert (Hlt : clk_limit (clock_at (seconds 10)) - 0 < minutes 1)
    by (vm_compute; reflexivity).
  split; [exact Hd|]. split; [exact Hl|]. split; [exact Hlt|].
  exact (replay_limited_discards_session sample_DISHES (clock_at (seconds 10)) 7
           "diet_meat" "meat" _ 0 Hd Hl Hlt).
Defined.

Lemma user_isolation_witness :
  8 <> user_of (TextMessage 7 "ужин") /\
  untouched 8 st_asked
    (step sample_DISHES st_asked (clock_at (minutes 3), TextMessage 7 "ужин")).
Proof.
  assert (H : 8 <> user_of (snd (clock_at (minutes 3), TextMessage 7 "ужин")))
    by (simpl; lia).
  split; [exact H|].
  exact (user_isolation sample_DISHES st_asked
           (clock_at (minutes 3), TextMessage 7 "ужин") 8 H).
Defined.

Lemma entitlement_permanent_witness :
  7 ∈ paid_users (run sample_DISHES initial_state evs_diet_open) /\
  7 ∈ paid_users (run sample_DISHES (run sample_DISHES initial_state evs_diet_open)
                    [(clock_at (minutes 2), CallbackQuery 7 "diet_meat");
                     (clock_at (minutes 9), CallbackQuery 7 "buy_access")]).
Proof.
  split; [exact user7_paid_diet_open|].
  exact (proj1 (entitlement_permanent sample_DISHES
                  (run sample_DISHES initial_state evs_diet_open)
                  [(clock_at (minutes 2), CallbackQuery 7 "diet_meat");
                   (clock_at (minutes 9), CallbackQuery 7 "buy_access")]
                  (clock_at 0) 8 7) user7_paid_diet_open).
Defined.

Lemma cache_hit_is_current_witness :
  In "meat"%string diets /\
  cached_reply (minutes 2 + seconds 299) 7 (cache_key 8 false "meat")
    (run sample_DISHES initial_state evs_served)
  = Some (render (selection sample_DISHES 8 false "meat")) /\
  render (selection sample_DISHES 8 false "meat")
  = render (filter_dishes sample_DISHES 8 false "meat").
Proof.
  assert (Hd : In "meat"%string diets) by (simpl; auto).
  assert (Hc : cached_reply (minutes 2 + seconds 299) 7 (cache_key 8 false "meat")
                 (run sample_DISHES initial_state evs_served)
               = Some (render (selection sample_DISHES 8 false "meat")))
    by (vm_compute; reflexivity).
  split; [exact Hd|]. split; [exact Hc|].
  exact (cache_hit_is_current sample_DISHES evs_served _ 7 8 false "meat" _ Hd Hc).
Defined.

Lemma dishes_only_after_diet_answer_witness :
  let st := run sample_DISHES initial_state evs_diet_open in
  let upd := CallbackQuery 7 "diet_meat" in
  let r := Answer (render (selection sample_DISHES 8 false "meat")) None in
  In r (replies sample_DISHES st (clock_at (minutes 2), upd)) /\
  dish_reply r /\
  in_state asking_diet 7 st = true /\ 7 ∈ paid_users st.
Proof.
  cbv zeta.
  assert (Hin : In (Answer (render (selection sample_DISHES 8 false "meat")) None)
                  (replies sample_DISHES (run sample_DISHES initial_state evs_diet_open)
                     (clock_at (minutes 2), CallbackQuery 7 "diet_meat")))
    by (vm_compute; left; reflexivity).
  assert (Hd : dish_reply (Answer (render (selection sample_DISHES 8 false "meat")) None)).
  { eexists _, _. split; [reflexivity|]. vm_compute. reflexivity. }
  split; [exact Hin|]. split; [exact Hd|].
  destruct (dishes_only_after_diet_answer sample_DISHES evs_diet_open
              (clock_at (minutes 2)) (CallbackQuery 7 "diet_meat") _ Hin Hd)
    as (data & _ & _ & Hs & Hp).
  split; [exact Hs | exact Hp].
Defined.
